(** * Jupyter kernel bridge: a shallow embedding of [resources/jupyter/bridge.py]

    The bridge reads JSON lines from its standard input, forwards them to a
    Jupyter kernel and relays the kernel's IOPub messages to its standard
    output.  The development follows the source top to bottom: Python values,
    exceptions, the process state, [emit], the message id mapping, the IOPub
    listener, the main loop and the start-up sequence; the theorems come after
    the definitions. *)

From Stdlib Require Import ZArith String Ascii List.
From stdpp Require Import gmap strings list fin_maps.
Import ListNotations.

Local Open Scope string_scope.
Local Open Scope Z_scope.

(** ** Python values

    The values the program handles are the ones [json.loads] builds and
    [json.dumps] prints.  A [dict] keeps its items in insertion order, so it is
    an association list; its keys are strings, as in every JSON object. *)

Inductive pyfloat :=
| FNaN
| FInf (negative : bool)
| FFinite (mantissa exponent : Z).   (* mantissa * 2 ^ exponent *)

#[local] Set Warnings "-register-all".

Inductive pyval :=
| PNone
| PBool (b : bool)
| PInt (z : Z)
| PFloat (f : pyfloat)
| PStr (s : string)
| PList (l : list pyval)
| PDict (items : list (string * pyval)).

Definition pydict := list (string * pyval).

(** ** Text that standard output can encode

    A [string] holds the code points of a Python [str] in the UTF-8 manner,
    a surrogate (U+D800..U+DFFF, which [json.loads] builds from an escape
    such as [\ud800]) like any other code point of three bytes.  [print]
    encodes the whole line before it writes; with standard output in UTF-8
    the encoder accepts every code point but the surrogates.  [utf8 s] says
    that [s] is well-formed UTF-8, so that it can be printed. *)

Definition continuation (a : ascii) : bool :=
  let n := nat_of_ascii a in ((128 <=? n) && (n <=? 191))%nat.

Definition between (lo hi : nat) (a : ascii) : bool :=
  let n := nat_of_ascii a in ((lo <=? n) && (n <=? hi))%nat.

Fixpoint utf8 (s : string) : bool :=
  match s with
  | EmptyString => true
  | String a s1 =>
      if between 0 127 a then utf8 s1
      else if between 194 223 a then
        match s1 with
        | String a1 s2 => continuation a1 && utf8 s2
        | _ => false
        end
      else if between 224 239 a then
        match s1 with
        | String a1 (String a2 s3) =>
            (if between 224 224 a then between 160 191 a1
             else if between 237 237 a then between 128 159 a1  (* no surrogate *)
             else continuation a1)
            && continuation a2 && utf8 s3
        | _ => false
        end
      else if between 240 244 a then
        match s1 with
        | String a1 (String a2 (String a3 s4)) =>
            (if between 240 240 a then between 144 191 a1
             else if between 244 244 a then between 128 143 a1
             else continuation a1)
            && continuation a2 && continuation a3 && utf8 s4
        | _ => false
        end
      else false
  end.

(** [print(json.dumps(obj, ensure_ascii=False))] can encode its line: the
    strings of [obj] are copied to the line as they are, so the line is
    well-formed exactly when they are. *)
Fixpoint encodable (v : pyval) : bool :=
  match v with
  | PStr s => utf8 s
  | PList l => forallb encodable l
  | PDict d => forallb (fun kv => utf8 (fst kv) && encodable (snd kv)) d
  | _ => true
  end.

(** ** Exceptions

    [error] is an instance of a subclass of [Exception]; [err_class] is the
    nearest class the program tells apart, [err_name] is [type(e).__name__]
    and [err_str] is [str(e)]: a class name and the message of a library,
    which are taken to be text that can be printed ([err_text]).
    [KeyboardInterrupt] and [SystemExit] derive from [BaseException] only. *)

Inductive error_class :=
| ImportError | RuntimeError | JSONDecodeError | EOFError
| AttributeError | TypeError | UnicodeEncodeError | OtherError.

Record error := checked_error {
  err_class : error_class;
  err_name : string;
  err_str : string;
  err_text : utf8 err_name && utf8 err_str = true
}.

(** The exception of class [c] with the name and the message given, which
    are literals wherever this is used. *)
Definition mkError (c : error_class) (name message : string) : error :=
  (if utf8 name && utf8 message as b
      return (utf8 name && utf8 message = b -> error)
   then fun H => checked_error c name message H
   else fun _ => checked_error c "Exception" "" eq_refl) eq_refl.

Inductive exn :=
| Err (e : error)
| KeyboardInterrupt
| SystemExit (code : Z).

Inductive result (A : Type) :=
| Ok (a : A)
| Raise (e : exn).
Arguments Ok {A} a.
Arguments Raise {A} e.

(** What a call into a library (jupyter_client, json, the import machinery)
    does: it returns, or it raises an [Exception].  An interruption from
    the keyboard is taken to arrive while the main loop waits for a line
    ([ReadRaises] below), not in the middle of such a call. *)
Inductive outcome (A : Type) :=
| Done (a : A)
| Fails (e : error).
Arguments Done {A} a.
Arguments Fails {A} e.

Definition error_class_eqb (c d : error_class) : bool :=
  match c, d with
  | ImportError, ImportError | RuntimeError, RuntimeError
  | JSONDecodeError, JSONDecodeError | EOFError, EOFError
  | AttributeError, AttributeError | TypeError, TypeError
  | UnicodeEncodeError, UnicodeEncodeError
  | OtherError, OtherError => true
  | _, _ => false
  end.

(** [except Exception] *)
Definition is_Exception (e : exn) : bool :=
  match e with Err _ => true | _ => false end.

(** [except C] for one of the classes above *)
Definition is_instance (c : error_class) (e : exn) : bool :=
  match e with Err x => error_class_eqb (err_class x) c | _ => false end.

Definition attribute_error (attr : string) : exn :=
  Err (mkError AttributeError "AttributeError"
         ("object has no attribute '" +:+ attr +:+ "'")).

Definition type_error (msg : string) : exn :=
  Err (mkError TypeError "TypeError" msg).

(** What [print] raises for a line it cannot encode.  The message is
    shortened; it names the character and its position. *)
Definition unicode_encode_error : exn :=
  Err (mkError UnicodeEncodeError "UnicodeEncodeError"
         "'utf-8' codec can't encode character: surrogates not allowed").

(** ** Operations on values *)

(** [bool(v)]: the test of [if v:] *)
Definition truthy (v : pyval) : bool :=
  match v with
  | PNone => false
  | PBool b => b
  | PInt z => negb (z =? 0)
  | PFloat (FFinite m _) => negb (m =? 0)
  | PFloat _ => true
  | PStr s => negb (String.eqb s "")
  | PList l => match l with [] => false | _ => true end
  | PDict d => match d with [] => false | _ => true end
  end.

(** [v == s] for a string literal [s] *)
Definition eq_str (v : pyval) (s : string) : bool :=
  match v with PStr t => String.eqb t s | _ => false end.

(** [isinstance(v, list)] *)
Definition is_list (v : pyval) : bool :=
  match v with PList _ => true | _ => false end.

Fixpoint dict_lookup (d : pydict) (k : string) : option pyval :=
  match d with
  | [] => None
  | (k', v) :: d' => if String.eqb k' k then Some v else dict_lookup d' k
  end.

(** [d[k] = v]: an existing key keeps its place, a new one goes last. *)
Fixpoint dict_set (d : pydict) (k : string) (v : pyval) : pydict :=
  match d with
  | [] => [(k, v)]
  | (k', v') :: d' =>
      if String.eqb k' k then (k', v) :: d' else (k', v') :: dict_set d' k v
  end.

(** [obj.get(key, default)]: only a dict has the method. *)
Definition py_get (obj : pyval) (key : string) (default : pyval) : result pyval :=
  match obj with
  | PDict d => Ok (match dict_lookup d key with Some v => v | None => default end)
  | _ => Raise (attribute_error "get")
  end.

(** [obj.items()] *)
Definition py_items (obj : pyval) : result pydict :=
  match obj with
  | PDict d => Ok d
  | _ => Raise (attribute_error "items")
  end.

(** ["".join(l)]: every item has to be a [str]. *)
Fixpoint str_join (l : list pyval) : result string :=
  match l with
  | [] => Ok ""
  | PStr s :: l' =>
      match str_join l' with
      | Ok t => Ok (s +:+ t)
      | Raise e => Raise e
      end
  | _ :: _ => Raise (type_error "sequence item: expected str instance")
  end.

(** [str.strip], the method [main] calls on every line it reads, is a
    parameter of the main loop below. *)
Class Strip := strip : string -> string.

(** [str_strip] is what the method does on a string held in UTF-8: it
    removes, at both ends, the code points for which [str.isspace] holds,
    which are U+0009..U+000D, U+001C..U+0020, U+0085, U+00A0, U+1680,
    U+2000..U+200A, U+2028, U+2029, U+202F, U+205F and U+3000, of one, two
    and three bytes.  The worked examples strip their lines with it. *)
Definition space1 (a : ascii) : bool :=
  between 9 13 a || between 28 32 a.

Definition space2 (a b : ascii) : bool :=
  between 194 194 a && (between 133 133 b || between 160 160 b).

Definition space3 (a b c : ascii) : bool :=
  between 225 225 a && between 154 154 b && between 128 128 c
  || between 226 226 a && between 128 128 b
     && (between 128 138 c || between 168 169 c || between 175 175 c)
  || between 226 226 a && between 129 129 b && between 159 159 c
  || between 227 227 a && between 128 128 b && between 128 128 c.

(** The white space at the head of [l] is dropped.  With [backwards], [l]
    is a string read from its end: the bytes of a code point come last
    byte first. *)
Fixpoint drop_space (backwards : bool) (l : list ascii) : list ascii :=
  match l with
  | a :: l1 =>
      if space1 a then drop_space backwards l1
      else
        match l1 with
        | b :: l2 =>
            if (if backwards then space2 b a else space2 a b)
            then drop_space backwards l2
            else
              match l2 with
              | c :: l3 =>
                  if (if backwards then space3 c b a else space3 a b c)
                  then drop_space backwards l3
                  else l
              | [] => l
              end
        | [] => l
        end
  | [] => []
  end.

Definition str_strip (s : string) : string :=
  string_of_list_ascii
    (rev (drop_space true (rev (drop_space false (list_ascii_of_string s))))).

#[local] Instance python_strip : Strip := str_strip.

(** ** The process state

    Every call into jupyter_client is written to [kernel_log], the lines
    printed on standard output are kept as the objects handed to [emit], one
    per line, oldest first. *)

Inductive kernel_call :=
| KcExecute (code : pyval)                (* kc.execute(code) *)
| KmInterruptKernel                       (* km.interrupt_kernel() *)
| KmRestartKernel (now : bool)            (* km.restart_kernel(now=...) *)
| KcWaitForReady (timeout : Z)            (* kc.wait_for_ready(timeout=...) *)
| KcGetIopubMsg (timeout : pyfloat)       (* kc.get_iopub_msg(timeout=...) *)
| KcStopChannels                          (* kc.stop_channels() *)
| KmShutdownKernel (now : bool)           (* km.shutdown_kernel(now=...) *)
| NewKernelManager (kernel_name : string) (* KernelManager(kernel_name=...) *)
| KmStartKernel                           (* km.start_kernel() *)
| KmClient                                (* km.client() *)
| KcStartChannels                         (* kc.start_channels() *)
| KcKernelInfo                            (* kc.kernel_info() *)
| KcGetShellMsg (timeout : Z).            (* kc.get_shell_msg(timeout=...) *)

Record world := mkWorld {
  msg_map : gmap string pyval;     (* _msg_map: kernel msg_id -> request id *)
  stdout : list pyval;
  stop_event : bool;
  kernel_log : list kernel_call
}.

Definition initial_world : world := mkWorld ∅ [] false [].

(** Computations that read and write the state and may raise. *)
Definition M (A : Type) : Type := world -> result A * world.

Definition ret {A} (a : A) : M A := fun w => (Ok a, w).

Definition bind {A B} (m : M A) (k : A -> M B) : M B :=
  fun w =>
    match m w with
    | (Ok a, w') => k a w'
    | (Raise e, w') => (Raise e, w')
    end.

Definition raise {A} (e : exn) : M A := fun w => (Raise e, w).

Definition lift {A} (r : result A) : M A := fun w => (r, w).

Declare Scope py_scope.
Delimit Scope py_scope with py.
Notation "x <- m ;; k" := (bind m (fun x => k))
  (at level 100, m at next level, right associativity) : py_scope.
Notation "m ;; k" := (bind m (fun _ => k))
  (at level 100, right associativity) : py_scope.
Local Open Scope py_scope.

(** [try: body / except <catches> as e: handler e] *)
Definition try_except {A} (body : M A) (catches : exn -> bool)
    (handler : exn -> M A) : M A :=
  fun w =>
    match body w with
    | (Ok a, w') => (Ok a, w')
    | (Raise e, w') => if catches e then handler e w' else (Raise e, w')
    end.

(** [try: body / finally: cleanup] *)
Definition try_finally {A} (body : M A) (cleanup : M unit) : M A :=
  fun w =>
    match body w with
    | (r, w') =>
        match cleanup w' with
        | (Ok _, w'') => (r, w'')
        | (Raise e, w'') => (Raise e, w'')
        end
    end.

(** A call into the kernel library: logged, then it returns or raises. *)
Definition call {A} (c : kernel_call) (o : outcome A) : M A :=
  fun w =>
    let w' := mkWorld (msg_map w) (stdout w) (stop_event w) (kernel_log w ++ [c]) in
    match o with
    | Done a => (Ok a, w')
    | Fails e => (Raise (Err e), w')
    end.

(** [str(e)] and [type(e).__name__] of a caught [Exception] *)
Definition exn_str (e : exn) : string :=
  match e with Err x => err_str x | _ => "" end.

Definition exn_name (e : exn) : string :=
  match e with
  | Err x => err_name x
  | KeyboardInterrupt => "KeyboardInterrupt"
  | SystemExit _ => "SystemExit"
  end.

(** ** Output *)

(** [emit(obj)]: one JSON line on standard output, written and flushed with
    [_emit_lock] held.  [print] raises [UnicodeEncodeError], before it has
    written anything, when the line cannot be encoded.  Standard output
    itself is taken to accept what is written to it. *)
Definition emit (obj : pyval) : M unit :=
  fun w =>
    if encodable obj
    then (Ok tt, mkWorld (msg_map w) (stdout w ++ [obj]) (stop_event w)
                   (kernel_log w))
    else (Raise unicode_encode_error, w).

(** ** Message ID mapping *)

Definition register_msg (msg_id : string) (req_id : pyval) : M unit :=
  fun w => (Ok tt, mkWorld (<[msg_id := req_id]> (msg_map w)) (stdout w)
                     (stop_event w) (kernel_log w)).

(** [_msg_map.get(key)]: the keys of the map are strings, a list or a dict
    as [key] cannot be hashed, any other value is a key that is not there. *)
Definition msg_map_get (m : gmap string pyval) (key : pyval) : result pyval :=
  match key with
  | PStr s => Ok (match m !! s with Some v => v | None => PNone end)
  | PList _ => Raise (type_error "unhashable type: 'list'")
  | PDict _ => Raise (type_error "unhashable type: 'dict'")
  | _ => Ok PNone
  end.

(** The [msg_id] of the parent header, [None] when there is none. *)
Definition parent_msg_id (msg : pyval) : result pyval :=
  match py_get msg "parent_header" (PDict []) with
  | Ok h => py_get h "msg_id" PNone
  | Raise e => Raise e
  end.

Definition get_req_id (msg : pyval) : M pyval :=
  parent_id <- lift (parent_msg_id msg) ;;
  if truthy parent_id then
    fun w => (msg_map_get (msg_map w) parent_id, w)
  else ret PNone.

(** ** IOPub listener *)

(** The loop of lines 171-173: [flat_data[k] = "".join(v)] for a list [v],
    [flat_data[k] = v] otherwise. *)
Definition flatten_value (v : pyval) : result pyval :=
  match v with
  | PList l =>
      match str_join l with
      | Ok s => Ok (PStr s)
      | Raise e => Raise e
      end
  | _ => Ok v
  end.

Fixpoint flatten_items (items : pydict) (flat_data : pydict) : result pydict :=
  match items with
  | [] => Ok flat_data
  | (k, v) :: rest =>
      match flatten_value v with
      | Ok v' => flatten_items rest (dict_set flat_data k v')
      | Raise e => Raise e
      end
  end.

Definition flatten_data (data : pyval) : result pyval :=
  match py_items data with
  | Ok items =>
      match flatten_items items [] with
      | Ok flat_data => Ok (PDict flat_data)
      | Raise e => Raise e
      end
  | Raise e => Raise e
  end.

(** The body of the loop after a message has been received (lines 156-199). *)
Definition handle_iopub_msg (msg : pyval) : M unit :=
  msg_type <- lift (py_get msg "msg_type" (PStr "")) ;;
  content <- lift (py_get msg "content" (PDict [])) ;;
  req_id <- get_req_id msg ;;
  if eq_str msg_type "stream" then
    name <- lift (py_get content "name" (PStr "stdout")) ;;
    text <- lift (py_get content "text" (PStr "")) ;;
    emit (PDict [("id", req_id); ("type", PStr "stream");
                 ("name", name); ("text", text)])
  else if eq_str msg_type "execute_result" || eq_str msg_type "display_data" then
    data <- lift (py_get content "data" (PDict [])) ;;
    flat_data <- lift (flatten_data data) ;;
    let out := [("id", req_id); ("type", msg_type); ("data", flat_data)] in
    if eq_str msg_type "execute_result" then
      execution_count <- lift (py_get content "execution_count" PNone) ;;
      emit (PDict (dict_set out "execution_count" execution_count))
    else
      emit (PDict out)
  else if eq_str msg_type "error" then
    ename <- lift (py_get content "ename" (PStr "Error")) ;;
    evalue <- lift (py_get content "evalue" (PStr "")) ;;
    traceback <- lift (py_get content "traceback" (PList [])) ;;
    emit (PDict [("id", req_id); ("type", PStr "error"); ("ename", ename);
                 ("evalue", evalue); ("traceback", traceback)])
  else if eq_str msg_type "status" then
    state <- lift (py_get content "execution_state" (PStr "")) ;;
    if eq_str state "idle" || eq_str state "busy" then
      emit (PDict [("id", req_id); ("type", PStr "status"); ("state", state)])
    else ret tt
  else ret tt.

Inductive loop_ctl := Continue | Break.

Definition poll_timeout : pyfloat := FFinite 1 (-1).   (* 0.5 *)

(** One turn of [while not stop_event.is_set()]: [poll] is what
    [kc.get_iopub_msg] does this time. *)
Definition iopub_iteration (poll : outcome pyval) : M loop_ctl :=
  fun w =>
    if stop_event w then (Ok Break, w)
    else
      (got <- try_except
                (msg <- call (KcGetIopubMsg poll_timeout) poll ;; ret (Some msg))
                is_Exception
                (fun _ => ret None) ;;
       match got with
       | None => ret Continue                               (* continue *)
       | Some msg => handle_iopub_msg msg ;; ret Continue
       end) w.

(** The listener thread over the outcomes of its successive polls.  [Some tt]
    is the return of [iopub_listener], [None] a loop that is still running
    when the outcomes given are used up. *)
Fixpoint iopub_listener (polls : list (outcome pyval)) : M (option unit) :=
  match polls with
  | [] => fun w => if stop_event w then (Ok (Some tt), w) else (Ok None, w)
  | poll :: rest =>
      c <- iopub_iteration poll ;;
      match c with
      | Break => ret (Some tt)
      | Continue => iopub_listener rest
      end
  end.

(** ** The main thread *)

(** A library call that is not a call into the kernel (an import, a parse). *)
Definition perform {A} (o : outcome A) : M A :=
  fun w =>
    match o with
    | Done a => (Ok a, w)
    | Fails e => (Raise (Err e), w)
    end.

(** What the kernel answers to the calls one turn of the main loop can make. *)
Record kernel_env := mkKernelEnv {
  kc_execute : outcome string;             (* kc.execute: the kernel msg_id *)
  km_interrupt_kernel : outcome unit;
  km_restart_kernel : outcome unit;
  kc_wait_for_ready : outcome unit
}.

(** What the environment answers during start-up.  The reply to
    [kc.kernel_info()] is the description the kernel gives of itself, taken
    to be text that can be printed ([shell_reply_text]). *)
Record startup_env := mkStartupEnv {
  environ_kernel_name : option string;     (* JUPYTER_KERNEL_NAME *)
  import_jupyter_client : outcome unit;
  import_ipykernel : outcome unit;
  new_kernel_manager : outcome unit;
  km_start_kernel : outcome unit;
  km_client : outcome unit;
  kc_start_channels : outcome unit;
  kc_wait_for_ready_first : outcome unit;
  km_shutdown_kernel_first : outcome unit;
  kc_kernel_info : outcome unit;
  kc_get_shell_msg : outcome pyval;
  shell_reply_text :
    match kc_get_shell_msg with
    | Done reply => encodable reply = true
    | Fails _ => True
    end
}.

(** What the kernel answers during the final clean-up. *)
Record teardown_env := mkTeardownEnv {
  kc_stop_channels : outcome unit;
  km_shutdown_kernel : outcome unit
}.

(** What reading standard input gives: a line, together with the kernel's
    answers while the line is handled, or an exception raised by the read.
    The end of the list is the end of the input. *)
Inductive stdin_item :=
| Line (line : string) (ke : kernel_env)
| ReadRaises (e : exn).

Definition startup_error (ename evalue : string) : pyval :=
  PDict [("type", PStr "error"); ("ename", PStr ename);
         ("evalue", PStr evalue); ("traceback", PList [])].

Definition request_error (req_id : pyval) (ename evalue : string) : pyval :=
  PDict [("id", req_id); ("type", PStr "error"); ("ename", PStr ename);
         ("evalue", PStr evalue); ("traceback", PList [])].

Definition sys_exit {A} (code : Z) : M A := raise (SystemExit code).

(** Lines 22-67 of [main]: everything up to the [ready] line. *)
Definition startup (se : startup_env) : M unit :=
  let kernel_name :=
    match environ_kernel_name se with Some n => n | None => "python3" end in
  try_except (perform (import_jupyter_client se)) (is_instance ImportError)
    (fun _ =>
       emit (startup_error "ImportError"
               "jupyter_client not installed. Run: pip install jupyter ipykernel") ;;
       sys_exit 1) ;;
  try_except (perform (import_ipykernel se)) (is_instance ImportError)
    (fun _ =>
       emit (startup_error "ImportError"
               "ipykernel not installed. Run: pip install ipykernel") ;;
       sys_exit 1) ;;
  call (NewKernelManager kernel_name) (new_kernel_manager se) ;;
  try_except (call KmStartKernel (km_start_kernel se)) is_Exception
    (fun e => emit (startup_error (exn_name e) (exn_str e)) ;; sys_exit 1) ;;
  call KmClient (km_client se) ;;
  call KcStartChannels (kc_start_channels se) ;;
  try_except (call (KcWaitForReady 30) (kc_wait_for_ready_first se))
    (is_instance RuntimeError)
    (fun e =>
       emit (startup_error "KernelTimeout" (exn_str e)) ;;
       call (KmShutdownKernel true) (km_shutdown_kernel_first se) ;;
       sys_exit 1) ;;
  call KcKernelInfo (kc_kernel_info se) ;;
  language <-
    try_except
      (reply <- call (KcGetShellMsg 10) (kc_get_shell_msg se) ;;
       content <- lift (py_get reply "content" (PDict [])) ;;
       language_info <- lift (py_get content "language_info" (PDict [])) ;;
       lift (py_get language_info "name" (PStr "python")))
      is_Exception
      (fun _ => ret (PStr "python")) ;;
  emit (PDict [("type", PStr "ready"); ("language", language)]).

Section Bridge.

Context `{Strip}.

(** [json.loads], which returns the value parsed or raises. *)
Variable json_loads : string -> outcome pyval.

(** The body of [for line in sys.stdin] (lines 79-115). *)
Definition dispatch (ke : kernel_env) (line : string) : M loop_ctl :=
  let line := strip line in
  if String.eqb line "" then ret Continue
  else
    parsed <- try_except (req <- perform (json_loads line) ;; ret (Some req))
                (is_instance JSONDecodeError)
                (fun _ => ret None) ;;
    match parsed with
    | None => ret Continue                                  (* continue *)
    | Some req =>
        req_id <- lift (py_get req "id" PNone) ;;
        action <- lift (py_get req "action" PNone) ;;
        if eq_str action "execute" then
          code <- lift (py_get req "code" (PStr "")) ;;
          msg_id <- call (KcExecute code) (kc_execute ke) ;;
          register_msg msg_id req_id ;;
          ret Continue
        else if eq_str action "interrupt" then
          try_except (call KmInterruptKernel (km_interrupt_kernel ke))
            is_Exception
            (fun e => emit (request_error req_id "InterruptError" (exn_str e))) ;;
          ret Continue
        else if eq_str action "restart" then
          try_except
            (call (KmRestartKernel true) (km_restart_kernel ke) ;;
             call (KcWaitForReady 30) (kc_wait_for_ready ke) ;;
             emit (PDict [("id", req_id); ("type", PStr "status");
                          ("state", PStr "restarted")]))
            is_Exception
            (fun e => emit (request_error req_id "RestartError" (exn_str e))) ;;
          ret Continue
        else if eq_str action "shutdown" then ret Break
        else ret Continue
    end.

Fixpoint for_lines (input : list stdin_item) : M unit :=
  match input with
  | [] => ret tt
  | ReadRaises e :: _ => raise e
  | Line line ke :: rest =>
      c <- dispatch ke line ;;
      match c with
      | Continue => for_lines rest
      | Break => ret tt
      end
  end.

(** The [finally] block of lines 119-125, over what its two calls do. *)
Definition finally_block (stop_channels shutdown_kernel : M unit) : M unit :=
  (fun w => (Ok tt, mkWorld (msg_map w) (stdout w) true (kernel_log w))) ;;
  try_except (stop_channels ;; shutdown_kernel) is_Exception (fun _ => ret tt).

(** The block with the two calls into jupyter_client, which raise
    exceptions derived from [Exception]. *)
Definition teardown (te : teardown_env) : M unit :=
  finally_block
    (call KcStopChannels (kc_stop_channels te))
    (call (KmShutdownKernel true) (km_shutdown_kernel te)).

(** Lines 77-125. *)
Definition main_loop (input : list stdin_item) (te : teardown_env) : M unit :=
  try_finally
    (try_except (for_lines input)
       (fun e => is_instance EOFError e ||
                 match e with KeyboardInterrupt => true | _ => false end)
       (fun _ => ret tt))
    (teardown te).

(** [main], as the main thread runs it. *)
Definition main (se : startup_env) (input : list stdin_item)
    (te : teardown_env) : M unit :=
  startup se ;;
  main_loop input te.

(** The exit status of the process when [main] ends with [r]: 0 when it
    returns, the argument of [sys.exit], 1 after the traceback of an
    exception nothing caught, 130 when that is [KeyboardInterrupt]. *)
Definition exit_status (r : result unit) : Z :=
  match r with
  | Ok _ => 0
  | Raise (SystemExit code) => code
  | Raise KeyboardInterrupt => 130
  | Raise (Err _) => 1
  end.

(** *** The two threads together

    Once the listener thread runs, an execution of the process is an
    interleaving of turns of the main loop and turns of the listener loop;
    [_msg_map] is read or written once in a turn, with its lock held, and a
    turn prints at most once, which is why a turn is one step here.  A turn
    that raises ends its loop in the process; [run] lets the loop go on, so
    that the runs below are more than the executions of the process: what
    holds of every run holds of every execution. *)
Inductive action :=
| MainHandles (line : string) (ke : kernel_env)
| ListenerPolls (poll : outcome pyval).

Definition step (w : world) (a : action) : world :=
  match a with
  | MainHandles line ke => snd (dispatch ke line w)
  | ListenerPolls poll => snd (iopub_iteration poll w)
  end.

Definition run (acts : list action) (w : world) : world :=
  fold_left step acts w.

End Bridge.

(** ** The output writer under two threads

    [emit] is called by the main thread and by the listener thread.  Here a
    call is taken apart into the steps the scheduler can interleave: the
    thread reaches [with _emit_lock], takes the lock when it is free, [print]
    writes the text of [json.dumps(obj)] and the newline character by
    character, and the lock is released once the line is out.  A line that
    cannot be encoded makes [print] raise before it writes: the [with] block
    is left with the lock released and nothing written, which is one step
    here (a thread waiting for the lock sees no difference). *)

Inductive thread := MainThread | ListenerThread.

Inductive emit_pc :=
| Outside                                     (* not inside emit *)
| Acquiring (obj : pyval)                     (* at [with _emit_lock] *)
| Printing (obj : pyval) (rest : list ascii). (* lock held, [rest] to write *)

Record writer_state := mkWriter {
  emit_lock : option thread;       (* the holder of _emit_lock *)
  stream : list ascii;             (* what has reached standard output *)
  pc_main : emit_pc;
  pc_listener : emit_pc
}.

Inductive event :=
| CallEmit (t : thread) (obj : pyval)   (* thread [t] calls [emit(obj)] *)
| Advance (t : thread).                 (* thread [t] runs one step *)

Definition thread_eqb (t u : thread) : bool :=
  match t, u with
  | MainThread, MainThread | ListenerThread, ListenerThread => true
  | _, _ => false
  end.

Definition pc (s : writer_state) (t : thread) : emit_pc :=
  match t with
  | MainThread => pc_main s
  | ListenerThread => pc_listener s
  end.

Definition set_pc (s : writer_state) (t : thread) (p : emit_pc)
    (lock : option thread) (out : list ascii) : writer_state :=
  match t with
  | MainThread => mkWriter lock out p (pc_listener s)
  | ListenerThread => mkWriter lock out (pc_main s) p
  end.

Definition writers_start : writer_state := mkWriter None [] Outside Outside.

Definition newline : ascii := ascii_of_nat 10.

Section OutputWriter.

(** [json.dumps(obj, ensure_ascii=False)] *)
Variable json_dumps : pyval -> string.

(** The characters [print(json.dumps(obj))] writes. *)
Definition line_of (obj : pyval) : list ascii :=
  (list_ascii_of_string (json_dumps obj) ++ [newline])%list.

Definition writer_step (s : writer_state) (ev : event) : writer_state :=
  match ev with
  | CallEmit t obj =>
      match pc s t with
      | Outside => set_pc s t (Acquiring obj) (emit_lock s) (stream s)
      | _ => s                                  (* still in an earlier call *)
      end
  | Advance t =>
      match pc s t with
      | Outside => s
      | Acquiring obj =>
          match emit_lock s with
          | None =>
              if encodable obj
              then set_pc s t (Printing obj (line_of obj)) (Some t) (stream s)
              else set_pc s t Outside None (stream s)   (* [print] raises *)
          | Some _ => s                         (* blocked on the lock *)
          end
      | Printing obj (c :: rest) =>
          set_pc s t (Printing obj rest) (emit_lock s) (stream s ++ [c])
      | Printing obj [] =>
          set_pc s t Outside None (stream s)    (* leaves the [with] block *)
      end
  end.

Definition run_writers (sched : list event) (s : writer_state) : writer_state :=
  fold_left writer_step sched s.

(** The lines of the objects [objs], one after the other. *)
Definition lines_of (objs : list pyval) : list ascii :=
  concat (map line_of objs).

Definition emit_called (sched : list event) (obj : pyval) : Prop :=
  exists t, In (CallEmit t obj) sched.

Definition in_emit (called : pyval -> Prop) (p : emit_pc) : Prop :=
  match p with
  | Outside => True
  | Acquiring obj => called obj
  | Printing obj _ => called obj
  end.

Definition not_printing (p : emit_pc) : Prop :=
  match p with Printing _ _ => False | _ => True end.

(** The objects whose line is out when the step [ev] is run in [s]: the one
    of the thread that leaves the [with] block with its line written. *)
Definition releases (s : writer_state) (ev : event) : list pyval :=
  match ev with
  | Advance t =>
      match pc s t with
      | Printing obj [] => [obj]
      | _ => []
      end
  | CallEmit _ _ => []
  end.

(** The objects whose [emit] has written its line and released the lock
    along the schedule [sched] from [s], in the order of the releases. *)
Fixpoint released (sched : list event) (s : writer_state) : list pyval :=
  match sched with
  | [] => []
  | ev :: rest => (releases s ev ++ released rest (writer_step s ev))%list
  end.




(** The stream is made of the whole lines of [objs], followed by the part
    already written of the line of the thread that holds the lock. *)
Definition lines_written (called : pyval -> Prop) (objs : list pyval)
    (s : writer_state) : Prop :=
  exists (partial : list ascii),
    stream s = (lines_of objs ++ partial)%list
    /\ Forall called objs
    /\ (forall t, in_emit called (pc s t))
    /\ match emit_lock s with
       | None => partial = [] /\ forall t, not_printing (pc s t)
       | Some t =>
           (exists obj rest,
              pc s t = Printing obj rest
              /\ (partial ++ rest)%list = line_of obj)
           /\ forall u, thread_eqb u t = false -> not_printing (pc s u)
       end.

Definition line_integrity (called : pyval -> Prop) (s : writer_state) : Prop :=
  exists (objs : list pyval), lines_written called objs s.

End OutputWriter.

(** * Vocabulary of the properties *)

Definition result_bind {A B} (r : result A) (k : A -> result B) : result B :=
  match r with
  | Ok a => k a
  | Raise e => Raise e
  end.

(** The keys of a dict are pairwise different. *)
Definition dict_wf (d : pydict) : Prop := List.NoDup (map fst d).

Definition flat_values (d : pydict) : Prop :=
  Forall (fun kv => is_list (snd kv) = false) d.

(** [w] with [outs] printed after what is already on standard output. *)
Definition printed (w : world) (outs : list pyval) : world :=
  mkWorld (msg_map w) (stdout w ++ outs) (stop_event w) (kernel_log w).

(** What [emit(r)] does in [w]: the line is printed when it can be encoded,
    else [UnicodeEncodeError] is raised and nothing is printed. *)
Definition printed_or_raised (w : world) (r : pyval) : result unit * world :=
  if encodable r then (Ok tt, printed w [r])
  else (Raise unicode_encode_error, w).

(** [r] is a response object whose first field is ["id": v]. *)
Definition carries_id (v : pyval) (r : pyval) : Prop :=
  exists fields, r = PDict (("id", v) :: fields).

(** The state after [kc.get_iopub_msg] has been called once more. *)
Definition polled (w : world) : world :=
  mkWorld (msg_map w) (stdout w) (stop_event w)
    (kernel_log w ++ [KcGetIopubMsg poll_timeout]).

(** The message kinds [iopub_listener] has a branch for. *)
Definition relayed_kind (msg_type : pyval) : bool :=
  eq_str msg_type "stream" || eq_str msg_type "execute_result"
  || eq_str msg_type "display_data" || eq_str msg_type "error"
  || eq_str msg_type "status".

Definition status_response (req_id state : pyval) : pyval :=
  PDict [("id", req_id); ("type", PStr "status"); ("state", state)].

(** The actions [main] has a branch for. *)
Definition known_action (action : pyval) : bool :=
  eq_str action "execute" || eq_str action "interrupt"
  || eq_str action "restart" || eq_str action "shutdown".

Definition restarted_response (req_id : pyval) : pyval :=
  PDict [("id", req_id); ("type", PStr "status"); ("state", PStr "restarted")].

(** The calls of a restart: the wait follows the restart that returned. *)
Definition restart_calls (ke : kernel_env) : list kernel_call :=
  match km_restart_kernel ke with
  | Done _ => [KmRestartKernel true; KcWaitForReady 30]
  | Fails _ => [KmRestartKernel true]
  end.

(** The response [main] builds for a restart request with the id [req_id]. *)
Definition restart_answer (ke : kernel_env) (req_id : pyval) : pyval :=
  match km_restart_kernel ke, kc_wait_for_ready ke with
  | Done _, Done _ => restarted_response req_id
  | Done _, Fails e => request_error req_id "RestartError" (err_str e)
  | Fails e, _ => request_error req_id "RestartError" (err_str e)
  end.

(** The state after the calls [calls] into the kernel. *)
Definition called (w : world) (calls : list kernel_call) : world :=
  mkWorld (msg_map w) (stdout w) (stop_event w) (kernel_log w ++ calls).

Definition registered (w : world) (msg_id : string) (req_id : pyval) : world :=
  mkWorld (<[msg_id := req_id]> (msg_map w)) (stdout w) (stop_event w)
    (kernel_log w).

(** A line the main loop has nothing to do for: blank, not JSON, or an
    object whose action is missing or not one of the four. *)
Inductive ignored_line `{Strip} (json_loads : string -> outcome pyval)
    (line : string) : Prop :=
| blank_line :
    strip line = "" -> ignored_line json_loads line
| unparseable_line e :
    json_loads (strip line) = Fails e -> err_class e = JSONDecodeError ->
    ignored_line json_loads line
| unknown_action_line d action :
    json_loads (strip line) = Done (PDict d) ->
    py_get (PDict d) "action" PNone = Ok action ->
    known_action action = false ->
    ignored_line json_loads line.

(** A later turn of the main loop in which [kc.execute] returns [msg_id]
    again.  The kernel gives every message an id of its own, so this does not
    happen; the theorems below say where they rely on it. *)
Definition reissues (msg_id : string) (a : action) : bool :=
  match a with
  | MainHandles _ ke =>
      match kc_execute ke with
      | Done m => String.eqb m msg_id
      | Fails _ => false
      end
  | ListenerPolls _ => false
  end.

Definition never_reissued (msg_id : string) (acts : list action) : Prop :=
  forallb (fun a => negb (reissues msg_id a)) acts = true.


(** C2 as the specification states it: an id that is not null on a response
    printed by either loop is the result of a look-up for some message. *)
Definition every_response_id_looked_up `{Strip} : Prop :=
  forall (json_loads : string -> outcome pyval) (a : action) (w : world)
         (outs : list pyval) (r v : pyval),
    stdout (step json_loads w a) = (stdout w ++ outs)%list ->
    In r outs -> carries_id v r -> v <> PNone ->
    exists msg, fst (get_req_id msg w) = Ok v.

(** ** Sample data *)

(** What [display(JSON([1, 2, 3]))] makes an IPython kernel publish: the
    value under [application/json] is the JSON value itself, here a list of
    numbers. *)
Definition json_display_msg : pyval :=
  PDict [("msg_type", PStr "display_data");
         ("parent_header", PDict [("msg_id", PStr "m1")]);
         ("content",
          PDict [("data",
                  PDict [("application/json", PList [PInt 1; PInt 2; PInt 3]);
                         ("text/plain", PStr "<IPython.core.display.JSON object>")]);
                 ("metadata", PDict [])])].

Definition double_quote : string := String (ascii_of_nat 34) "".

Definition quoted (s : string) : string := double_quote +:+ s +:+ double_quote.

Definition end_of_line : string := String newline "".

(** [{"id":"r1","action":"execute","code":"1+1"}] *)
Definition execute_line : string :=
  "{" +:+ quoted "id" +:+ ":" +:+ quoted "r1" +:+ ","
      +:+ quoted "action" +:+ ":" +:+ quoted "execute" +:+ ","
      +:+ quoted "code" +:+ ":" +:+ quoted "1+1" +:+ "}" +:+ end_of_line.

Definition execute_request : pyval :=
  PDict [("id", PStr "r1"); ("action", PStr "execute"); ("code", PStr "1+1")].

(** [{"action":"execute","code":"2+2"}] *)
Definition anonymous_line : string :=
  "{" +:+ quoted "action" +:+ ":" +:+ quoted "execute" +:+ ","
      +:+ quoted "code" +:+ ":" +:+ quoted "2+2" +:+ "}" +:+ end_of_line.

Definition anonymous_request : pydict :=
  [("action", PStr "execute"); ("code", PStr "2+2")].

(** [{"id":"r2","action":"restart"}] *)
Definition restart_line : string :=
  "{" +:+ quoted "id" +:+ ":" +:+ quoted "r2" +:+ ","
      +:+ quoted "action" +:+ ":" +:+ quoted "restart" +:+ "}" +:+ end_of_line.

Definition restart_request : pyval :=
  PDict [("id", PStr "r2"); ("action", PStr "restart")].

(** [[]], valid JSON that is not an object *)
Definition list_line : string := "[]" +:+ end_of_line.

(** [json.loads] on the lines above; anything else is taken as not JSON. *)
Definition sample_json_loads (s : string) : outcome pyval :=
  if String.eqb s (str_strip execute_line) then Done execute_request
  else if String.eqb s (str_strip anonymous_line) then Done (PDict anonymous_request)
  else if String.eqb s (str_strip restart_line) then Done restart_request
  else if String.eqb s "[]" then Done (PList [])
  else Fails (mkError JSONDecodeError "JSONDecodeError" "Expecting value").

(** A kernel that answers every call, and names its next message [m1]. *)
Definition sample_kernel : kernel_env :=
  mkKernelEnv (Done "m1") (Done tt) (Done tt) (Done tt).

(** The same kernel one message later. *)
Definition later_kernel : kernel_env :=
  mkKernelEnv (Done "m2") (Done tt) (Done tt) (Done tt).

Definition sample_teardown : teardown_env := mkTeardownEnv (Done tt) (Done tt).

Definition queue_empty : error := mkError OtherError "Empty" "".

Definition stream_msg : pyval :=
  PDict [("msg_type", PStr "stream");
         ("parent_header", PDict [("msg_id", PStr "m1")]);
         ("content", PDict [("name", PStr "stdout"); ("text", PStr "2")])].

Definition busy_msg : pyval :=
  PDict [("msg_type", PStr "status");
         ("parent_header", PDict [("msg_id", PStr "m1")]);
         ("content", PDict [("execution_state", PStr "busy")])].

(** What happens between the registration and a later message: the listener
    polls in vain, the main loop restarts the kernel, the listener relays a
    status message. *)
Definition sample_turns : list action :=
  [ListenerPolls (Fails queue_empty);
   MainHandles restart_line later_kernel;
   ListenerPolls (Done busy_msg)].


(** [json.dumps] on the values without digits, quotes or items; the
    examples use no other. *)
Definition sample_json_dumps (obj : pyval) : string :=
  match obj with
  | PBool true => "true"
  | PBool false => "false"
  | PList [] => "[]"
  | PDict [] => "{}"
  | _ => "null"
  end.

(** The main thread emits [{}] and the listener [[]]; the listener asks for
    the lock while the main thread is half way through its line. *)
Definition contended_schedule : list event :=
  [CallEmit MainThread (PDict []); CallEmit ListenerThread (PList []);
   Advance MainThread; Advance MainThread;
   Advance ListenerThread; Advance ListenerThread;
   Advance MainThread; Advance MainThread; Advance MainThread;
   Advance ListenerThread; Advance ListenerThread; Advance ListenerThread;
   Advance ListenerThread; Advance ListenerThread].

(** ** Vocabulary of the further properties *)

(** What the [finally] block leaves in the log: [km.shutdown_kernel] is in
    the same [try] as [kc.stop_channels] and after it. *)
Definition teardown_calls (te : teardown_env) : list kernel_call :=
  match kc_stop_channels te with
  | Done _ => [KcStopChannels; KmShutdownKernel true]
  | Fails _ => [KcStopChannels]
  end.

(** [except (EOFError, KeyboardInterrupt)] *)
Definition ends_input (e : exn) : bool :=
  is_instance EOFError e
  || match e with KeyboardInterrupt => true | _ => false end.

(** The lines of the input that the main loop skips. *)
Definition ignored_item `{Strip} (json_loads : string -> outcome pyval)
    (item : stdin_item) : Prop :=
  match item with
  | Line line _ => ignored_line json_loads line
  | ReadRaises _ => False
  end.


(** [d.get(key, default)] on the items of a dict. *)
Definition item_or (d : pydict) (key : string) (default : pyval) : pyval :=
  match dict_lookup d key with Some v => v | None => default end.

(** The responses of the listener, for the id [req_id] and the content of
    the message. *)
Definition stream_response (req_id : pyval) (content : pydict) : pyval :=
  PDict [("id", req_id); ("type", PStr "stream");
         ("name", item_or content "name" (PStr "stdout"));
         ("text", item_or content "text" (PStr ""))].

Definition error_response (req_id : pyval) (content : pydict) : pyval :=
  PDict [("id", req_id); ("type", PStr "error");
         ("ename", item_or content "ename" (PStr "Error"));
         ("evalue", item_or content "evalue" (PStr ""));
         ("traceback", item_or content "traceback" (PList []))].

Definition execute_result_response (req_id flat : pyval) (content : pydict)
  : pyval :=
  PDict [("id", req_id); ("type", PStr "execute_result"); ("data", flat);
         ("execution_count", item_or content "execution_count" PNone)].

Definition display_data_response (req_id flat : pyval) : pyval :=
  PDict [("id", req_id); ("type", PStr "display_data"); ("data", flat)].

(** A turn of the listener that polls and prints [r]: the loop goes on when
    [r] can be encoded; otherwise nothing is printed and
    [UnicodeEncodeError] leaves the loop. *)
Definition relayed (w : world) (r : pyval) : result loop_ctl * world :=
  if encodable r then (Ok Continue, printed (polled w) [r])
  else (Raise unicode_encode_error, polled w).

(** The turn of the listener that receives [msg] in [w] answers with the id
    [req_id]: for each kind of message with a branch, the response is the
    one of that kind with [req_id] as its id. *)
Definition relays_with_id (msg : pyval) (w : world) (req_id : pyval) : Prop :=
  forall content,
    py_get msg "content" (PDict []) = Ok (PDict content) ->
    (py_get msg "msg_type" (PStr "") = Ok (PStr "stream") ->
     iopub_iteration (Done msg) w = relayed w (stream_response req_id content))
    /\ (py_get msg "msg_type" (PStr "") = Ok (PStr "error") ->
        iopub_iteration (Done msg) w
          = relayed w (error_response req_id content))
    /\ (forall flat,
        py_get msg "msg_type" (PStr "") = Ok (PStr "execute_result") ->
        flatten_data (item_or content "data" (PDict [])) = Ok flat ->
        iopub_iteration (Done msg) w
          = relayed w (execute_result_response req_id flat content))
    /\ (forall flat,
        py_get msg "msg_type" (PStr "") = Ok (PStr "display_data") ->
        flatten_data (item_or content "data" (PDict [])) = Ok flat ->
        iopub_iteration (Done msg) w
          = relayed w (display_data_response req_id flat))
    /\ (forall state,
        py_get msg "msg_type" (PStr "") = Ok (PStr "status") ->
        item_or content "execution_state" (PStr "") = state ->
        state = PStr "busy" \/ state = PStr "idle" ->
        iopub_iteration (Done msg) w
          = relayed w (status_response req_id state)).

(** Every step of the start-up goes well, up to [kc.kernel_info()]. *)
Definition kernel_starts (se : startup_env) : Prop :=
  import_jupyter_client se = Done tt
  /\ import_ipykernel se = Done tt
  /\ new_kernel_manager se = Done tt
  /\ km_start_kernel se = Done tt
  /\ km_client se = Done tt
  /\ kc_start_channels se = Done tt
  /\ kc_wait_for_ready_first se = Done tt
  /\ kc_kernel_info se = Done tt.

(** [os.environ.get("JUPYTER_KERNEL_NAME", "python3")] *)
Definition kernel_name_of (se : startup_env) : string :=
  match environ_kernel_name se with Some n => n | None => "python3" end.

Definition ready_response (language : pyval) : pyval :=
  PDict [("type", PStr "ready"); ("language", language)].

(** The calls of a start-up that goes well. *)
Definition startup_calls (se : startup_env) : list kernel_call :=
  [NewKernelManager (kernel_name_of se); KmStartKernel; KmClient;
   KcStartChannels; KcWaitForReady 30; KcKernelInfo; KcGetShellMsg 10].

(** A start-up step fails with [e] and no [except] clause is there for it:
    an import raises something else than [ImportError], the constructor,
    [km.client()], [kc.start_channels()] or [kc.kernel_info()] raises, or
    [kc.wait_for_ready] raises something else than [RuntimeError]. *)
Inductive startup_crash (se : startup_env) (e : error) : Prop :=
| jupyter_client_import_breaks :
    import_jupyter_client se = Fails e ->
    is_instance ImportError (Err e) = false ->
    startup_crash se e
| ipykernel_import_breaks :
    import_jupyter_client se = Done tt ->
    import_ipykernel se = Fails e ->
    is_instance ImportError (Err e) = false ->
    startup_crash se e
| kernel_manager_fails :
    import_jupyter_client se = Done tt ->
    import_ipykernel se = Done tt ->
    new_kernel_manager se = Fails e ->
    startup_crash se e
| client_fails :
    import_jupyter_client se = Done tt ->
    import_ipykernel se = Done tt ->
    new_kernel_manager se = Done tt ->
    km_start_kernel se = Done tt ->
    km_client se = Fails e ->
    startup_crash se e
| start_channels_fails :
    import_jupyter_client se = Done tt ->
    import_ipykernel se = Done tt ->
    new_kernel_manager se = Done tt ->
    km_start_kernel se = Done tt ->
    km_client se = Done tt ->
    kc_start_channels se = Fails e ->
    startup_crash se e
| wait_for_ready_breaks :
    import_jupyter_client se = Done tt ->
    import_ipykernel se = Done tt ->
    new_kernel_manager se = Done tt ->
    km_start_kernel se = Done tt ->
    km_client se = Done tt ->
    kc_start_channels se = Done tt ->
    kc_wait_for_ready_first se = Fails e ->
    is_instance RuntimeError (Err e) = false ->
    startup_crash se e
| kernel_info_fails :
    import_jupyter_client se = Done tt ->
    import_ipykernel se = Done tt ->
    new_kernel_manager se = Done tt ->
    km_start_kernel se = Done tt ->
    km_client se = Done tt ->
    kc_start_channels se = Done tt ->
    kc_wait_for_ready_first se = Done tt ->
    kc_kernel_info se = Fails e ->
    startup_crash se e.

Definition is_str (v : pyval) : bool :=
  match v with PStr _ => true | _ => false end.

(** A value [flatten_value] can handle: anything but a list with an item
    that is not a string. *)
Definition joinable (v : pyval) : bool :=
  match v with
  | PList l => forallb is_str l
  | _ => true
  end.

Definition is_printing (p : emit_pc) : bool :=
  match p with Printing _ _ => true | _ => false end.


(** ** More sample data *)

(** [{"id":"r3","action":"interrupt"}] *)
Definition interrupt_line : string :=
  "{" +:+ quoted "id" +:+ ":" +:+ quoted "r3" +:+ ","
      +:+ quoted "action" +:+ ":" +:+ quoted "interrupt" +:+ "}" +:+ end_of_line.

Definition interrupt_request : pyval :=
  PDict [("id", PStr "r3"); ("action", PStr "interrupt")].

(** [{"action":"shutdown"}] *)
Definition shutdown_line : string :=
  "{" +:+ quoted "action" +:+ ":" +:+ quoted "shutdown" +:+ "}" +:+ end_of_line.

Definition shutdown_request : pyval := PDict [("action", PStr "shutdown")].

(** [json.loads] on these two lines as well. *)
Definition more_json_loads (s : string) : outcome pyval :=
  if String.eqb s (str_strip interrupt_line) then Done interrupt_request
  else if String.eqb s (str_strip shutdown_line) then Done shutdown_request
  else sample_json_loads s.

(** A kernel that cannot be interrupted and rejects the code it is given. *)
Definition stubborn_kernel : kernel_env :=
  mkKernelEnv
    (Fails (mkError OtherError "ValueError" "code must be a string"))
    (Fails (mkError RuntimeError "RuntimeError" "Cannot interrupt kernel"))
    (Done tt) (Done tt).

(** A Julia kernel that starts. *)
Definition julia_startup : startup_env :=
  mkStartupEnv (Some "julia-1.10") (Done tt) (Done tt) (Done tt) (Done tt)
    (Done tt) (Done tt) (Done tt) (Done tt) (Done tt)
    (Done (PDict [("content",
                   PDict [("language_info", PDict [("name", PStr "julia")])])]))
    eq_refl.

Definition connection_refused : error :=
  mkError OtherError "ZMQError" "Connection refused".

(** A kernel whose channels cannot be opened. *)
Definition no_channels : startup_env :=
  mkStartupEnv None (Done tt) (Done tt) (Done tt) (Done tt) (Done tt)
    (Fails connection_refused) (Done tt) (Done tt) (Done tt) (Done PNone)
    eq_refl.

Definition error_msg : pyval :=
  PDict [("msg_type", PStr "error");
         ("parent_header", PDict [("msg_id", PStr "m1")]);
         ("content", PDict [("ename", PStr "ZeroDivisionError");
                            ("traceback", PList [PStr "line 1"])])].

Definition result_msg : pyval :=
  PDict [("msg_type", PStr "execute_result");
         ("parent_header", PDict [("msg_id", PStr "m1")]);
         ("content",
          PDict [("execution_count", PInt 3);
                 ("data", PDict [("text/plain", PList [PStr "4"; PStr "2"]);
                                 ("text/html", PStr "<b>42</b>")])])].

(** The code point U+D800, a lone surrogate: what [json.loads] makes of the
    escape [\ud800]. *)
Definition lone_surrogate : string :=
  String (ascii_of_nat 237) (String (ascii_of_nat 160)
    (String (ascii_of_nat 128) "")).

(** [{"id":"\ud800","action":"restart"}] *)
Definition surrogate_line : string :=
  "{" +:+ quoted "id" +:+ ":" +:+ quoted "\ud800" +:+ ","
      +:+ quoted "action" +:+ ":" +:+ quoted "restart" +:+ "}" +:+ end_of_line.

Definition surrogate_request : pyval :=
  PDict [("id", PStr lone_surrogate); ("action", PStr "restart")].

(** [json.loads] on this line as well. *)
Definition surrogate_json_loads (s : string) : outcome pyval :=
  if String.eqb s (str_strip surrogate_line) then Done surrogate_request
  else more_json_loads s.

(** The main thread is half way through the line of [{}], the listener
    waits for the lock with [[]]. *)
Definition contended_state : writer_state :=
  mkWriter (Some MainThread) [ascii_of_nat 123] 
    (Printing (PDict []) [ascii_of_nat 125; newline])
    (Acquiring (PList [])).

(** * Properties *)

Ltac case_match_goal :=
  match goal with
  | |- context [match ?x with _ => _ end] => destruct x eqn:?
  end.

(** ** Flattening of display data *)

Lemma string_app_empty_r (s : string) : s +:+ "" = s.
Proof.
  induction s as [|c s' IHs]; [reflexivity|].
  change (String c (s' +:+ "") = String c s'). now rewrite IHs.
Qed.

Lemma str_join_strings (fragments : list string) :
  str_join (map PStr fragments) = Ok (String.concat "" fragments).
Proof.
  induction fragments as [|s rest IH]; simpl; [reflexivity|].
  rewrite IH. destruct rest as [|t rest']; simpl; [|reflexivity].
  now rewrite string_app_empty_r.
Qed.

Lemma flatten_value_not_list v v' :
  flatten_value v = Ok v' -> is_list v' = false.
Proof.
  destruct v; simpl; try (intros [= <-]; reflexivity).
  destruct (str_join l); intros [= <-]; reflexivity.
Qed.

Lemma flatten_value_flat v : is_list v = false -> flatten_value v = Ok v.
Proof. destruct v; simpl; congruence. Qed.

Lemma dict_set_fresh d k v :
  ~ In k (map fst d) -> dict_set d k v = (d ++ [(k, v)])%list.
Proof.
  induction d as [|[k' v'] d IH]; simpl; [reflexivity|]. intros Hn.
  destruct (String.eqb_spec k' k) as [->|Hne]; [tauto|].
  rewrite IH; tauto.
Qed.

Lemma dict_set_keys d k v k0 :
  In k0 (map fst (dict_set d k v)) <-> k0 = k \/ In k0 (map fst d).
Proof.
  induction d as [|[k' v'] d IH]; simpl; [intuition auto|].
  destruct (String.eqb_spec k' k) as [->|Hne]; simpl; [|rewrite IH];
    intuition auto.
Qed.

Lemma dict_set_wf d k v : dict_wf d -> dict_wf (dict_set d k v).
Proof.
  unfold dict_wf. induction d as [|[k' v'] d IH]; simpl; intros Hd.
  - apply List.NoDup_cons; [simpl; tauto | apply List.NoDup_nil].
  - apply List.NoDup_cons_iff in Hd as [Hk Hd].
    destruct (String.eqb_spec k' k) as [->|Hne]; simpl; apply List.NoDup_cons_iff.
    + auto.
    + split; [|auto]. rewrite dict_set_keys. intuition auto.
Qed.

Lemma dict_set_flat d k v :
  flat_values d -> is_list v = false -> flat_values (dict_set d k v).
Proof.
  unfold flat_values. induction d as [|[k' v'] d IH]; simpl; intros Hd Hv.
  - repeat constructor. exact Hv.
  - apply Forall_cons_iff in Hd as [Hh Hd].
    destruct (String.eqb_spec k' k); apply Forall_cons_iff; auto.
Qed.

Lemma flatten_items_invariant items acc flat :
  flatten_items items acc = Ok flat ->
  dict_wf acc -> flat_values acc -> dict_wf flat /\ flat_values flat.
Proof.
  revert acc. induction items as [|[k v] rest IH]; simpl; intros acc.
  - intros [= <-]; auto.
  - destruct (flatten_value v) as [v'|e] eqn:Hv; [|discriminate].
    intros Hrest Hwf Hflat. apply (IH _ Hrest).
    + now apply dict_set_wf.
    + apply dict_set_flat; [assumption|]. eapply flatten_value_not_list, Hv.
Qed.

Lemma flatten_items_flat d acc :
  dict_wf (acc ++ d)%list -> flat_values d ->
  flatten_items d acc = Ok (acc ++ d)%list.
Proof.
  revert acc. induction d as [|[k v] d IH]; simpl; intros acc Hwf Hflat.
  - now rewrite app_nil_r.
  - apply Forall_cons_iff in Hflat as [Hv Hd]. simpl in Hv.
    rewrite (flatten_value_flat _ Hv).
    assert (Hk : ~ In k (map fst acc)).
    { unfold dict_wf in Hwf. rewrite map_app in Hwf. simpl in Hwf.
      apply List.NoDup_remove_2 in Hwf. rewrite in_app_iff in Hwf. tauto. }
    rewrite (dict_set_fresh _ _ _ Hk).
    replace (acc ++ (k, v) :: d)%list with ((acc ++ [(k, v)]) ++ d)%list
      by now rewrite <- app_assoc.
    apply IH; [|assumption]. now rewrite <- app_assoc.
Qed.

Lemma flatten_data_flat_dict d :
  dict_wf d -> flat_values d -> flatten_data (PDict d) = Ok (PDict d).
Proof.
  intros Hwf Hflat. unfold flatten_data. simpl.
  now rewrite (flatten_items_flat d [] Hwf Hflat).
Qed.

Lemma flatten_items_lookup items : forall acc flat k v,
  flatten_items items acc = Ok flat ->
  dict_wf items -> dict_lookup items k = Some v ->
  exists v', flatten_value v = Ok v' /\ dict_lookup flat k = Some v'.
Proof.
  assert (Hset : forall d k v, dict_lookup (dict_set d k v) k = Some v).
  { induction d as [|[k' v'] d IHd]; intros k v; simpl.
    - now rewrite String.eqb_refl.
    - destruct (String.eqb_spec k' k) as [->|Hne]; simpl.
      + now rewrite String.eqb_refl.
      + destruct (String.eqb_spec k' k); [tauto | apply IHd]. }
  assert (Hother : forall d k v k0, k <> k0 ->
            dict_lookup (dict_set d k v) k0 = dict_lookup d k0).
  { induction d as [|[k' v'] d IHd]; intros k v k0 Hne; simpl.
    - destruct (String.eqb_spec k k0); [tauto | reflexivity].
    - destruct (String.eqb_spec k' k) as [->|Hne']; simpl.
      + destruct (String.eqb_spec k k0); [tauto | reflexivity].
      + destruct (String.eqb_spec k' k0); [reflexivity | now apply IHd]. }
  assert (Hkeep : forall items acc flat k v,
            flatten_items items acc = Ok flat -> ~ In k (map fst items) ->
            dict_lookup acc k = Some v -> dict_lookup flat k = Some v).
  { induction items0 as [|[k' v'] rest IHr]; simpl; intros acc flat k v.
    - now intros [= <-].
    - destruct (flatten_value v') as [w|e]; [|discriminate].
      intros Hrest Hnot Hacc. apply (IHr _ _ _ _ Hrest); [tauto|].
      rewrite Hother; [assumption|]. intros ->. tauto. }
  induction items as [|[k' v'] rest IH]; simpl; intros acc flat k v;
    [discriminate|].
  destruct (flatten_value v') as [w|e] eqn:Hw; [|discriminate].
  intros Hrest Hwf Hk. apply List.NoDup_cons_iff in Hwf as [Hnot Hwf].
  destruct (String.eqb_spec k' k) as [->|Hne].
  - injection Hk as <-. exists w. split; [assumption|].
    apply (Hkeep _ _ _ _ _ Hrest Hnot). apply Hset.
  - now apply (IH _ _ _ _ Hrest).
Qed.

(** C4. Flattening joins a list of text fragments into one string
    ([["a","b","c"]] becomes ["abc"]) under every key of the data, leaves a
    string as it is, and is idempotent: flattening what has been flattened
    changes nothing, for one value and for the whole [data] dict. *)
Theorem flatten_joins_fragments_and_is_idempotent :
  forall (fragments : list string) (s : string) (v data : pyval),
    flatten_value (PList (map PStr fragments))
      = Ok (PStr (String.concat "" fragments))
    /\ flatten_value (PList [PStr "a"; PStr "b"; PStr "c"]) = Ok (PStr "abc")
    /\ flatten_value (PStr s) = Ok (PStr s)
    /\ result_bind (flatten_value v) flatten_value = flatten_value v
    /\ result_bind (flatten_data data) flatten_data = flatten_data data
    /\ (forall (d flat : pydict) (k : string),
          dict_wf d ->
          dict_lookup d k = Some (PList (map PStr fragments)) ->
          flatten_data (PDict d) = Ok (PDict flat) ->
          dict_lookup flat k = Some (PStr (String.concat "" fragments))).
Proof.
  intros fragments s v data. repeat split.
  - simpl. now rewrite str_join_strings.
  - destruct (flatten_value v) as [v'|e] eqn:Hv; simpl; [|reflexivity].
    apply flatten_value_flat. eapply flatten_value_not_list, Hv.
  - destruct (flatten_data data) as [flat|e] eqn:Hdata; simpl; [|reflexivity].
    destruct data; try discriminate.
    unfold flatten_data in Hdata. simpl in Hdata.
    destruct (flatten_items items []) as [flat'|e] eqn:Hflat; [|discriminate].
    injection Hdata as <-.
    destruct (flatten_items_invariant _ _ _ Hflat) as [Hwf Hvals];
      [apply List.NoDup_nil | constructor |].
    now apply flatten_data_flat_dict.
  - intros d flat k Hwf Hk. unfold flatten_data. simpl.
    destruct (flatten_items d []) as [flat'|e] eqn:Hflat; [|discriminate].
    intros [= <-].
    destruct (flatten_items_lookup _ _ _ _ _ Hflat Hwf Hk) as (v' & Hv' & Hl).
    simpl in Hv'. rewrite str_join_strings in Hv'. now injection Hv' as <-.
Qed.

(** ** The listener *)

Lemma printed_nil w : printed w [] = w.
Proof. destruct w. unfold printed. simpl. now rewrite app_nil_r. Qed.

Lemma emit_result r w : emit r w = printed_or_raised w r.
Proof. reflexivity. Qed.

(** A response with an id that cannot be encoded cannot be encoded. *)
Lemma encodable_response v fields :
  encodable (PDict (("id", v) :: fields))
  = encodable v
    && forallb (fun kv => utf8 (fst kv) && encodable (snd kv)) fields.
Proof. reflexivity. Qed.

Lemma get_req_id_world msg w : snd (get_req_id msg w) = w.
Proof.
  unfold get_req_id, bind, lift, ret.
  destruct (parent_msg_id msg) as [p|e]; [|reflexivity].
  destruct (truthy p); reflexivity.
Qed.

Lemma get_req_id_msg_map msg w w' :
  msg_map w = msg_map w' -> fst (get_req_id msg w) = fst (get_req_id msg w').
Proof.
  intros Hm. unfold get_req_id, bind, lift, ret.
  destruct (parent_msg_id msg) as [p|e]; [|reflexivity].
  destruct (truthy p); simpl; [now rewrite Hm | reflexivity].
Qed.

(** What handling a message does to the state: nothing but printing at most
    one response, whose id is what [get_req_id] returned. *)
Lemma handle_iopub_msg_effect msg w :
  exists outs,
    snd (handle_iopub_msg msg w) = printed w outs
    /\ (length outs <= 1)%nat
    /\ forall r, In r outs ->
         exists v, fst (get_req_id msg w) = Ok v /\ carries_id v r.
Proof.
  unfold handle_iopub_msg, bind, lift.
  destruct (py_get msg "msg_type" (PStr "")) as [msg_type|e];
    [|exists []; rewrite printed_nil; simpl; intuition].
  destruct (py_get msg "content" (PDict [])) as [content|e];
    [|exists []; rewrite printed_nil; simpl; intuition].
  pose proof (get_req_id_world msg w) as Hw.
  destruct (get_req_id msg w) as [[req_id|e] w'] eqn:Hreq; simpl in Hw; subst w';
    [|exists []; rewrite printed_nil; simpl; intuition].
  simpl fst.
  assert (Hnone : exists outs, w = printed w outs
      /\ (length outs <= 1)%nat
      /\ forall r, In r outs -> exists v, Ok req_id = Ok v /\ carries_id v r).
  { exists []. rewrite printed_nil. simpl. intuition. }
  assert (Hone : forall fields,
    exists outs,
      snd (emit (PDict (("id", req_id) :: fields)) w) = printed w outs
      /\ (length outs <= 1)%nat
      /\ forall r, In r outs -> exists v, Ok req_id = Ok v /\ carries_id v r).
  { intros fields. rewrite emit_result. unfold printed_or_raised.
    destruct (encodable (PDict (("id", req_id) :: fields))); [|exact Hnone].
    eexists. split; [reflexivity|]. split; [simpl; lia|].
    intros r [<-|[]]. exists req_id. split; [reflexivity|]. now exists fields. }
  repeat (case_match_goal; simpl; try apply Hone; try apply Hnone).
Qed.

Lemma eq_str_spec v s : eq_str v s = true <-> v = PStr s.
Proof.
  destruct v; simpl; try (split; [discriminate | intros [=]]).
  destruct (String.eqb_spec s0 s); split; congruence.
Qed.

Lemma iopub_iteration_received msg w :
  stop_event w = false ->
  iopub_iteration (Done msg) w =
    (match fst (handle_iopub_msg msg (polled w)) with
     | Ok _ => Ok Continue
     | Raise e => Raise e
     end, snd (handle_iopub_msg msg (polled w))).
Proof.
  intros Hstop. unfold iopub_iteration. rewrite Hstop.
  unfold bind, try_except, call, ret. simpl. fold (polled w).
  now destruct (handle_iopub_msg msg (polled w)) as [[[]|e] w'].
Qed.

Lemma iopub_iteration_poll_fails e w :
  stop_event w = false ->
  iopub_iteration (Fails e) w = (Ok Continue, polled w).
Proof.
  intros Hstop. unfold iopub_iteration. now rewrite Hstop.
Qed.

Lemma iopub_iteration_stopped poll w :
  stop_event w = true -> iopub_iteration poll w = (Ok Break, w).
Proof. intros Hstop. unfold iopub_iteration. now rewrite Hstop. Qed.

Lemma handle_status_msg msg content state w :
  py_get msg "msg_type" (PStr "") = Ok (PStr "status") ->
  py_get msg "content" (PDict []) = Ok content ->
  py_get content "execution_state" (PStr "") = Ok state ->
  handle_iopub_msg msg w =
    match fst (get_req_id msg w) with
    | Ok req_id =>
        if eq_str state "idle" || eq_str state "busy"
        then printed_or_raised w (status_response req_id state)
        else (Ok tt, w)
    | Raise e => (Raise e, w)
    end.
Proof.
  intros Htype Hcontent Hstate. unfold handle_iopub_msg, bind, lift.
  rewrite Htype, Hcontent.
  pose proof (get_req_id_world msg w) as Hw.
  destruct (get_req_id msg w) as [[req_id|e] w'];
    simpl in Hw; subst w'; [|reflexivity].
  simpl. rewrite Hstate.
  destruct (eq_str state "idle" || eq_str state "busy"); [|reflexivity].
  apply emit_result.
Qed.

Lemma handle_other_msg msg msg_type w :
  py_get msg "msg_type" (PStr "") = Ok msg_type ->
  relayed_kind msg_type = false ->
  snd (handle_iopub_msg msg w) = w.
Proof.
  unfold relayed_kind. intros Htype Hkind.
  repeat (apply orb_false_iff in Hkind as [Hkind ?]).
  unfold handle_iopub_msg, bind, lift. rewrite Htype.
  destruct (py_get msg "content" (PDict [])) as [content|e]; [|reflexivity].
  pose proof (get_req_id_world msg w) as Hw.
  destruct (get_req_id msg w) as [[req_id|e] w'];
    simpl in Hw; subst w'; [|reflexivity].
  repeat match goal with H : eq_str _ _ = false |- _ => rewrite H; clear H end.
  reflexivity.
Qed.

(** The messages with a branch that prints, in full. *)
Lemma handle_relayed_msg msg content req_id w :
  py_get msg "content" (PDict []) = Ok (PDict content) ->
  fst (get_req_id msg w) = Ok req_id ->
  (py_get msg "msg_type" (PStr "") = Ok (PStr "stream") ->
   handle_iopub_msg msg w
     = printed_or_raised w (stream_response req_id content))
  /\ (py_get msg "msg_type" (PStr "") = Ok (PStr "error") ->
      handle_iopub_msg msg w
        = printed_or_raised w (error_response req_id content))
  /\ (py_get msg "msg_type" (PStr "") = Ok (PStr "execute_result") ->
      handle_iopub_msg msg w =
        match flatten_data (item_or content "data" (PDict [])) with
        | Ok flat =>
            printed_or_raised w (execute_result_response req_id flat content)
        | Raise e => (Raise e, w)
        end)
  /\ (py_get msg "msg_type" (PStr "") = Ok (PStr "display_data") ->
      handle_iopub_msg msg w =
        match flatten_data (item_or content "data" (PDict [])) with
        | Ok flat => printed_or_raised w (display_data_response req_id flat)
        | Raise e => (Raise e, w)
        end).
Proof.
  intros Hcontent Hreq.
  pose proof (get_req_id_world msg w) as Hw.
  repeat split; intros Htype; unfold handle_iopub_msg, bind, lift;
    rewrite Htype, Hcontent;
    destruct (get_req_id msg w) as [r w']; simpl in Hreq, Hw; subst r w';
    try reflexivity;
    simpl; fold (item_or content "data" (PDict []));
    now destruct (flatten_data (item_or content "data" (PDict []))).
Qed.

Lemma relayed_turn w r :
  (match fst (printed_or_raised (polled w) r) with
   | Ok _ => Ok Continue
   | Raise e => Raise e
   end, snd (printed_or_raised (polled w) r)) = relayed w r.
Proof. unfold printed_or_raised, relayed. now destruct (encodable r). Qed.

(** A turn of the listener answers with the id [get_req_id] returns. *)
Lemma iopub_iteration_relays msg req_id w :
  stop_event w = false ->
  fst (get_req_id msg w) = Ok req_id ->
  relays_with_id msg w req_id.
Proof.
  intros Hstop Hreq content Hcontent.
  rewrite (get_req_id_msg_map msg w (polled w) eq_refl) in Hreq.
  destruct (handle_relayed_msg msg content req_id (polled w) Hcontent Hreq)
    as (Hstream & Herror & Hresult & Hdisplay).
  rewrite (iopub_iteration_received _ _ Hstop).
  split; [|split; [|split; [|split]]].
  - intros Htype. rewrite (Hstream Htype). apply relayed_turn.
  - intros Htype. rewrite (Herror Htype). apply relayed_turn.
  - intros flat Htype Hflat. rewrite (Hresult Htype), Hflat.
    apply relayed_turn.
  - intros flat Htype Hflat. rewrite (Hdisplay Htype), Hflat.
    apply relayed_turn.
  - intros state Htype Hstate Hrelayed.
    assert (Hget : py_get (PDict content) "execution_state" (PStr "")
                   = Ok state) by (now rewrite <- Hstate).
    rewrite (handle_status_msg _ _ _ _ Htype Hcontent Hget), Hreq.
    replace (eq_str state "idle" || eq_str state "busy") with true
      by (now destruct Hrelayed as [-> | ->]).
    apply relayed_turn.
Qed.

(** X8. A status message whose response can be encoded is relayed exactly
    when its execution state is [busy] or [idle]; with any other state, and
    for a message of a kind the listener has no branch for, nothing is
    printed. *)
Theorem status_relayed_when_printable :
  forall (msg : pyval) (w : world),
    stop_event w = false ->
    (forall content state req_id,
        py_get msg "msg_type" (PStr "") = Ok (PStr "status") ->
        py_get msg "content" (PDict []) = Ok content ->
        py_get content "execution_state" (PStr "") = Ok state ->
        fst (get_req_id msg w) = Ok req_id ->
        encodable (status_response req_id state) = true ->
        ((state = PStr "busy" \/ state = PStr "idle")
         /\ stdout (snd (iopub_iteration (Done msg) w))
            = (stdout w ++ [status_response req_id state])%list)
        \/ (state <> PStr "busy" /\ state <> PStr "idle"
            /\ stdout (snd (iopub_iteration (Done msg) w)) = stdout w))
    /\ (forall content state,
        py_get msg "msg_type" (PStr "") = Ok (PStr "status") ->
        py_get msg "content" (PDict []) = Ok content ->
        py_get content "execution_state" (PStr "") = Ok state ->
        state <> PStr "busy" -> state <> PStr "idle" ->
        stdout (snd (iopub_iteration (Done msg) w)) = stdout w)
    /\ (forall msg_type,
        py_get msg "msg_type" (PStr "") = Ok msg_type ->
        relayed_kind msg_type = false ->
        stdout (snd (iopub_iteration (Done msg) w)) = stdout w).
Proof.
  intros msg w Hstop. rewrite (iopub_iteration_received _ _ Hstop). simpl snd.
  assert (Hstate : forall state,
            eq_str state "idle" || eq_str state "busy" = true
            <-> state = PStr "busy" \/ state = PStr "idle").
  { intros state. rewrite orb_true_iff, !eq_str_spec. tauto. }
  repeat split.
  - intros content state req_id Htype Hcontent Hst Hreq Henc.
    rewrite (handle_status_msg _ _ _ _ Htype Hcontent Hst).
    rewrite <- (get_req_id_msg_map msg w (polled w) eq_refl), Hreq.
    unfold printed_or_raised. rewrite Henc.
    destruct (eq_str state "idle" || eq_str state "busy") eqn:Hb.
    + left. split; [now apply Hstate | reflexivity].
    + right. assert (Hn : ~ (state = PStr "busy" \/ state = PStr "idle")).
      { rewrite <- Hstate. congruence. }
      repeat split; try tauto.
  - intros content state Htype Hcontent Hst Hbusy Hidle.
    rewrite (handle_status_msg _ _ _ _ Htype Hcontent Hst).
    destruct (fst (get_req_id msg (polled w))); [|reflexivity].
    destruct (eq_str state "idle" || eq_str state "busy") eqn:Hb; [|reflexivity].
    apply Hstate in Hb. tauto.
  - intros msg_type Htype Hkind.
    now rewrite (handle_other_msg _ _ _ Htype Hkind).
Qed.

(** C7, at the failing input.  The stop event is not set and the kernel
    reports [busy] or [idle] for an execution whose request id cannot be
    encoded (the id ["\ud800"] of a request is such an id: [json.loads]
    makes a lone surrogate of it).  [print] raises [UnicodeEncodeError] in
    [emit]: no status response is printed, and the exception ends the
    listener whatever the later polls would have brought. *)
Theorem status_with_unencodable_id_ends_listener :
  forall (msg content state req_id : pyval) (rest : list (outcome pyval))
         (w : world),
    stop_event w = false ->
    py_get msg "msg_type" (PStr "") = Ok (PStr "status") ->
    py_get msg "content" (PDict []) = Ok content ->
    py_get content "execution_state" (PStr "") = Ok state ->
    eq_str state "idle" || eq_str state "busy" = true ->
    fst (get_req_id msg w) = Ok req_id ->
    encodable req_id = false ->
    iopub_listener (Done msg :: rest) w = (Raise unicode_encode_error, polled w)
    /\ stdout (polled w) = stdout w
    /\ stop_event (polled w) = false.
Proof.
  intros msg content state req_id rest w Hstop Htype Hcontent Hst Hstate
    Hreq Henc.
  split; [|split; [reflexivity | exact Hstop]].
  simpl. unfold bind. rewrite (iopub_iteration_received _ _ Hstop).
  rewrite (handle_status_msg _ _ _ _ Htype Hcontent Hst).
  rewrite <- (get_req_id_msg_map msg w (polled w) eq_refl), Hreq, Hstate.
  unfold printed_or_raised, status_response.
  rewrite encodable_response, Henc. reflexivity.
Qed.

Lemma handle_iopub_msg_stop_event msg w :
  stop_event (snd (handle_iopub_msg msg w)) = stop_event w.
Proof.
  destruct (handle_iopub_msg_effect msg w) as (outs & -> & _). reflexivity.
Qed.

(** The listener returns only with the stop event set. *)
Lemma iopub_listener_returns_when_stopped polls :
  forall w w',
    iopub_listener polls w = (Ok (Some tt), w') ->
    stop_event w = true /\ stop_event w' = true.
Proof.
  induction polls as [|poll rest IH]; intros w w'; simpl.
  - destruct (stop_event w) eqn:Hstop; [|discriminate].
    intros [= <-]. auto.
  - unfold bind. destruct (stop_event w) eqn:Hstop.
    + rewrite (iopub_iteration_stopped _ _ Hstop). simpl.
      intros [= <-]. auto.
    + destruct poll as [msg|e].
      * rewrite (iopub_iteration_received _ _ Hstop).
        pose proof (handle_iopub_msg_stop_event msg (polled w)) as Hkeep.
        destruct (handle_iopub_msg msg (polled w)) as [[[]|e] w1]; simpl;
          [|discriminate].
        intros Hrest. apply IH in Hrest as [Hw1 _].
        simpl in Hkeep. congruence.
      * rewrite (iopub_iteration_poll_fails _ _ Hstop).
        intros Hrest. apply IH in Hrest as [Hw1 _]. simpl in Hw1. congruence.
Qed.

(** A poll that times out or raises is a turn without a message. *)
Lemma iopub_listener_poll_fails e rest w :
  stop_event w = false ->
  iopub_listener (Fails e :: rest) w = iopub_listener rest (polled w).
Proof.
  intros Hstop. simpl. unfold bind.
  now rewrite (iopub_iteration_poll_fails _ _ Hstop).
Qed.

(** C8, at the failing input.  The stop event is not set and the kernel
    publishes display data whose [application/json] value is a list of
    numbers: ["".join] raises [TypeError] out of the loop, which ends the
    listener whatever the later polls would have brought. *)
Theorem listener_ended_by_json_list_payload :
  forall (rest : list (outcome pyval)) (w : world),
    stop_event w = false ->
    iopub_listener (Done json_display_msg :: rest) w
      = (Raise (type_error "sequence item: expected str instance"), polled w)
    /\ stop_event (polled w) = false.
Proof.
  intros rest w Hstop. split; [|exact Hstop].
  simpl. unfold bind. rewrite (iopub_iteration_received _ _ Hstop).
  unfold handle_iopub_msg, bind, lift, get_req_id. simpl.
  now destruct (msg_map w !! "m1").
Qed.

(** ** The main loop *)

Lemma err_str_utf8 e : utf8 (err_str e) = true.
Proof.
  pose proof (err_text e) as H. now apply andb_true_iff in H as [_ H].
Qed.


Lemma encodable_restarted v : encodable (restarted_response v) = encodable v.
Proof.
  unfold restarted_response. rewrite encodable_response. simpl.
  apply andb_true_r.
Qed.

Lemma encodable_request_error v ename evalue :
  utf8 ename = true -> utf8 evalue = true ->
  encodable (request_error v ename evalue) = encodable v.
Proof.
  intros Hn Hv. unfold request_error. rewrite encodable_response. simpl.
  rewrite Hn, Hv. simpl. apply andb_true_r.
Qed.


Lemma called_nil w : called w [] = w.
Proof. destruct w. unfold called. simpl. now rewrite app_nil_r. Qed.

Section BridgeProperties.

Context `{Strip}.
Variable json_loads : string -> outcome pyval.

Lemma dispatch_parsed ke line req w :
  strip line <> "" ->
  json_loads (strip line) = Done req ->
  dispatch json_loads ke line w =
    (req_id <- lift (py_get req "id" PNone) ;;
     action <- lift (py_get req "action" PNone) ;;
     if eq_str action "execute" then
       code <- lift (py_get req "code" (PStr "")) ;;
       msg_id <- call (KcExecute code) (kc_execute ke) ;;
       register_msg msg_id req_id ;;
       ret Continue
     else if eq_str action "interrupt" then
       try_except (call KmInterruptKernel (km_interrupt_kernel ke))
         is_Exception
         (fun e => emit (request_error req_id "InterruptError" (exn_str e))) ;;
       ret Continue
     else if eq_str action "restart" then
       try_except
         (call (KmRestartKernel true) (km_restart_kernel ke) ;;
          call (KcWaitForReady 30) (kc_wait_for_ready ke) ;;
          emit (PDict [("id", req_id); ("type", PStr "status");
                       ("state", PStr "restarted")]))
         is_Exception
         (fun e => emit (request_error req_id "RestartError" (exn_str e))) ;;
       ret Continue
     else if eq_str action "shutdown" then ret Break
     else ret Continue) w.
Proof.
  intros Hline Hreq. unfold dispatch.
  destruct (String.eqb_spec (strip line) ""); [tauto|].
  unfold bind at 1. unfold try_except, bind at 1, perform, ret.
  now rewrite Hreq.
Qed.

Lemma dispatch_ignored ke line w :
  ignored_line json_loads line -> dispatch json_loads ke line w = (Ok Continue, w).
Proof.
  intros [Hblank | e He Hclass | d action Hreq Haction Hknown].
  - unfold dispatch. now rewrite Hblank.
  - unfold dispatch.
    destruct (String.eqb_spec (strip line) ""); [reflexivity|].
    unfold bind, try_except, perform, ret, is_instance. rewrite He, Hclass.
    reflexivity.
  - destruct (String.eqb_spec (strip line) "") as [Hblank|Hline].
    + unfold dispatch. now rewrite Hblank.
    + rewrite (dispatch_parsed _ _ _ _ Hline Hreq).
      unfold known_action in Hknown.
      repeat (apply orb_false_iff in Hknown as [Hknown ?]).
      unfold bind, lift. rewrite Haction. simpl.
      repeat match goal with H : eq_str _ _ = false |- _ => rewrite H; clear H end.
      reflexivity.
Qed.

(** The part of C3 the code keeps: an ignored line prints nothing, raises
    nothing, and the loop goes on with the lines after it. *)
Lemma for_lines_skips_ignored ke line rest w :
  ignored_line json_loads line ->
  for_lines json_loads (Line line ke :: rest) w = for_lines json_loads rest w.
Proof.
  intros Hline. simpl. unfold bind. now rewrite (dispatch_ignored _ _ _ Hline).
Qed.

Lemma dispatch_not_object ke line v w :
  strip line <> "" ->
  json_loads (strip line) = Done v ->
  (forall d, v <> PDict d) ->
  dispatch json_loads ke line w = (Raise (attribute_error "get"), w).
Proof.
  intros Hline Hreq Hv. rewrite (dispatch_parsed _ _ _ _ Hline Hreq).
  destruct v; try reflexivity. now destruct (Hv items).
Qed.

Lemma teardown_returns te w :
  exists calls,
    teardown te w =
      (Ok tt, mkWorld (msg_map w) (stdout w) true (kernel_log w ++ calls)).
Proof.
  unfold teardown, finally_block, bind, try_except, call, ret. simpl.
  destruct (kc_stop_channels te) as [[]|e]; simpl.
  - destruct (km_shutdown_kernel te) as [[]|e]; simpl; rewrite <- app_assoc;
      eexists; reflexivity.
  - eexists; reflexivity.
Qed.

(** C3, at the failing input.  A line that is valid JSON but not an object
    (a number, a string, a list, [null]) has no [action]; [req.get] raises
    [AttributeError], which nothing catches: the loop ends there without
    reading the lines after it, and the process exits with status 1. *)
Theorem non_object_line_ends_main_loop :
  forall (ke : kernel_env) (line : string) (v : pyval)
         (rest : list stdin_item) (te : teardown_env) (w : world),
    strip line <> "" ->
    json_loads (strip line) = Done v ->
    (forall d, v <> PDict d) ->
    for_lines json_loads (Line line ke :: rest) w
      = (Raise (attribute_error "get"), w)
    /\ fst (main_loop json_loads (Line line ke :: rest) te w)
      = Raise (attribute_error "get")
    /\ stdout (snd (main_loop json_loads (Line line ke :: rest) te w))
      = stdout w
    /\ exit_status (fst (main_loop json_loads (Line line ke :: rest) te w)) = 1.
Proof.
  intros ke line v rest te w Hline Hreq Hv.
  assert (Hfor : for_lines json_loads (Line line ke :: rest) w
                 = (Raise (attribute_error "get"), w)).
  { simpl. unfold bind. now rewrite (dispatch_not_object _ _ _ _ Hline Hreq Hv). }
  split; [exact Hfor|].
  unfold main_loop, try_finally, try_except. rewrite Hfor. simpl.
  destruct (teardown_returns te w) as [calls ->]. simpl. auto.
Qed.

(** A restart request, in full: the calls, then the response when its id
    can be encoded.  When it cannot, [print] raises in the handler, after it
    has raised in the [try] block if the two calls returned, and the
    exception leaves the loop body with nothing printed. *)
Lemma dispatch_restart ke line req req_id w :
  strip line <> "" ->
  json_loads (strip line) = Done req ->
  py_get req "action" PNone = Ok (PStr "restart") ->
  py_get req "id" PNone = Ok req_id ->
  dispatch json_loads ke line w =
    if encodable req_id
    then (Ok Continue,
          printed (called w (restart_calls ke)) [restart_answer ke req_id])
    else (Raise unicode_encode_error, called w (restart_calls ke)).
Proof.
  intros Hline Hreq Haction Hid.
  rewrite (dispatch_parsed _ _ _ _ Hline Hreq).
  unfold bind, lift. rewrite Hid, Haction. simpl.
  unfold try_except, bind, call, ret, restart_calls, restart_answer.
  destruct (km_restart_kernel ke) as [[]|e]; simpl.
  - destruct (kc_wait_for_ready ke) as [[]|e]; simpl;
      rewrite !emit_result; unfold printed_or_raised.
    + fold (restarted_response req_id). rewrite encodable_restarted.
      destruct (encodable req_id) eqn:Henc; simpl.
      * unfold printed, called. simpl. now rewrite <- app_assoc.
      * rewrite emit_result. unfold printed_or_raised.
        unfold request_error. rewrite encodable_response, Henc. simpl.
        unfold called. simpl. now rewrite <- app_assoc.
    + rewrite (encodable_request_error req_id "RestartError" _ eq_refl
               (err_str_utf8 e)).
      destruct (encodable req_id); simpl;
        unfold printed, called; simpl; now rewrite <- app_assoc.
  - rewrite emit_result. unfold printed_or_raised.
    rewrite (encodable_request_error req_id "RestartError" _ eq_refl
               (err_str_utf8 e)).
    now destruct (encodable req_id).
Qed.

(** X9. A restart request whose id can be encoded gets exactly one
    response, with that id:
    [{id, type: "status", state: "restarted"}] when
    [km.restart_kernel(now=True)] and [kc.wait_for_ready(timeout=30)] both
    return, [{id, type: "error", ename: "RestartError", ...}] when either
    raises (a time-out of the wait is a [RuntimeError]); the loop goes on. *)
Theorem restart_gets_exactly_one_response :
  forall (ke : kernel_env) (line : string) (req req_id : pyval) (w : world),
    strip line <> "" ->
    json_loads (strip line) = Done req ->
    py_get req "action" PNone = Ok (PStr "restart") ->
    py_get req "id" PNone = Ok req_id ->
    encodable req_id = true ->
    dispatch json_loads ke line w =
      match km_restart_kernel ke, kc_wait_for_ready ke with
      | Done _, Done _ =>
          (Ok Continue,
           printed (called w [KmRestartKernel true; KcWaitForReady 30])
             [restarted_response req_id])
      | Done _, Fails e =>
          (Ok Continue,
           printed (called w [KmRestartKernel true; KcWaitForReady 30])
             [request_error req_id "RestartError" (err_str e)])
      | Fails e, _ =>
          (Ok Continue,
           printed (called w [KmRestartKernel true])
             [request_error req_id "RestartError" (err_str e)])
      end.
Proof.
  intros ke line req req_id w Hline Hreq Haction Hid Henc.
  rewrite (dispatch_restart _ _ _ _ _ Hline Hreq Haction Hid), Henc.
  unfold restart_calls, restart_answer.
  destruct (km_restart_kernel ke) as [[]|e]; [|reflexivity].
  now destruct (kc_wait_for_ready ke) as [[]|e].
Qed.

(** C6, at the failing input.  A restart request whose id cannot be encoded
    (the line [{"id":"\ud800","action":"restart"}] has such an id) gets no
    response at all: the kernel is restarted, [print] raises
    [UnicodeEncodeError] for the status or error response and again, in the
    [except] handler, for the [RestartError] response; nothing catches the
    second one, so the loop ends there, the lines after the request are not
    read and the process exits with status 1. *)
Theorem restart_with_unencodable_id_gets_no_response :
  forall (ke : kernel_env) (line : string) (req req_id : pyval)
         (rest : list stdin_item) (te : teardown_env) (w : world),
    strip line <> "" ->
    json_loads (strip line) = Done req ->
    py_get req "action" PNone = Ok (PStr "restart") ->
    py_get req "id" PNone = Ok req_id ->
    encodable req_id = false ->
    dispatch json_loads ke line w
      = (Raise unicode_encode_error, called w (restart_calls ke))
    /\ for_lines json_loads (Line line ke :: rest) w
       = (Raise unicode_encode_error, called w (restart_calls ke))
    /\ stdout (snd (main_loop json_loads (Line line ke :: rest) te w))
       = stdout w
    /\ exit_status (fst (main_loop json_loads (Line line ke :: rest) te w)) = 1.
Proof.
  intros ke line req req_id rest te w Hline Hreq Haction Hid Henc.
  assert (Hdispatch : dispatch json_loads ke line w
            = (Raise unicode_encode_error, called w (restart_calls ke))).
  { now rewrite (dispatch_restart _ _ _ _ _ Hline Hreq Haction Hid), Henc. }
  assert (Hfor : for_lines json_loads (Line line ke :: rest) w
            = (Raise unicode_encode_error, called w (restart_calls ke))).
  { simpl. unfold bind. now rewrite Hdispatch. }
  split; [exact Hdispatch|]. split; [exact Hfor|].
  unfold main_loop, try_finally, try_except. rewrite Hfor. simpl.
  destruct (teardown_returns te (called w (restart_calls ke))) as [calls ->].
  simpl. auto.
Qed.

End BridgeProperties.

(** ** Correlation of kernel messages with requests *)

Lemma get_req_id_lookup msg key w :
  parent_msg_id msg = Ok (PStr key) -> key <> "" ->
  fst (get_req_id msg w)
    = Ok (match msg_map w !! key with Some v => v | None => PNone end).
Proof.
  intros Hparent Hkey. unfold get_req_id, bind, lift. rewrite Hparent. simpl.
  now destruct (String.eqb_spec key "").
Qed.

(** An id that is not null has been looked up in the map under the parent
    message id. *)
Lemma get_req_id_from_map msg v w :
  fst (get_req_id msg w) = Ok v -> v <> PNone ->
  exists key, parent_msg_id msg = Ok (PStr key) /\ msg_map w !! key = Some v.
Proof.
  unfold get_req_id, bind, lift, ret.
  destruct (parent_msg_id msg) as [p|e]; simpl; [|discriminate].
  destruct (truthy p) eqn:Htruthy; simpl; [|congruence].
  destruct p; simpl; try congruence.
  destruct (msg_map w !! s) as [v'|] eqn:Hlookup; [|congruence].
  intros [= <-] _. now exists s.
Qed.

(** One turn of the listener that receives [msg]: nothing is printed once
    the stop event is set, otherwise what handling [msg] prints. *)
Lemma iopub_iteration_effect msg w :
  exists outs,
    stdout (snd (iopub_iteration (Done msg) w)) = (stdout w ++ outs)%list
    /\ forall r, In r outs ->
         exists v, fst (get_req_id msg w) = Ok v /\ carries_id v r.
Proof.
  destruct (stop_event w) eqn:Hstop.
  - rewrite (iopub_iteration_stopped _ _ Hstop). exists []. simpl.
    rewrite app_nil_r. split; [reflexivity | intros r []].
  - rewrite (iopub_iteration_received _ _ Hstop). simpl.
    destruct (handle_iopub_msg_effect msg (polled w)) as (outs & -> & _ & Hids).
    exists outs. split; [reflexivity|]. intros r Hr.
    rewrite (get_req_id_msg_map msg w (polled w) eq_refl). now apply Hids.
Qed.

Section Correlation.

Context `{Strip}.
Variable json_loads : string -> outcome pyval.

Lemma dispatch_execute ke line req req_id code msg_id w :
  strip line <> "" ->
  json_loads (strip line) = Done req ->
  py_get req "action" PNone = Ok (PStr "execute") ->
  py_get req "id" PNone = Ok req_id ->
  py_get req "code" (PStr "") = Ok code ->
  kc_execute ke = Done msg_id ->
  dispatch json_loads ke line w
    = (Ok Continue, registered (called w [KcExecute code]) msg_id req_id).
Proof.
  intros Hline Hreq Haction Hid Hcode Hexec.
  rewrite (dispatch_parsed _ _ _ _ _ Hline Hreq).
  unfold bind, lift. rewrite Hid, Haction. simpl. rewrite Hcode.
  unfold call. now rewrite Hexec.
Qed.

(** What one turn of the main loop does to the state: calls into the
    kernel, at most a registration under the id [kc.execute] returned, and
    responses whose id is the one of the request. *)
Lemma dispatch_effect ke line w :
  exists calls outs m',
    snd (dispatch json_loads ke line w)
      = mkWorld m' (stdout w ++ outs) (stop_event w) (kernel_log w ++ calls)
    /\ (m' = msg_map w
        \/ exists msg_id v, kc_execute ke = Done msg_id
                            /\ m' = <[msg_id := v]> (msg_map w))
    /\ forall r, In r outs ->
         exists req req_id evalue,
           json_loads (strip line) = Done req
           /\ py_get req "id" PNone = Ok req_id
           /\ (r = restarted_response req_id
               \/ r = request_error req_id "InterruptError" evalue
               \/ r = request_error req_id "RestartError" evalue).
Proof.
  assert (Hsame : exists calls outs m',
    w = mkWorld m' (stdout w ++ outs) (stop_event w) (kernel_log w ++ calls)
    /\ (m' = msg_map w
        \/ exists msg_id v, kc_execute ke = Done msg_id
                            /\ m' = <[msg_id := v]> (msg_map w))
    /\ forall r, In r outs ->
         exists req req_id evalue,
           json_loads (strip line) = Done req
           /\ py_get req "id" PNone = Ok req_id
           /\ (r = restarted_response req_id
               \/ r = request_error req_id "InterruptError" evalue
               \/ r = request_error req_id "RestartError" evalue)).
  { exists [], [], (msg_map w). rewrite !app_nil_r. destruct w; simpl.
    intuition. }
  destruct (String.eqb_spec (strip line) "") as [Hblank|Hline].
  { rewrite (dispatch_ignored json_loads ke line w (blank_line _ _ Hblank)).
    exact Hsame. }
  destruct (json_loads (strip line)) as [req|e] eqn:Hreq.
  2:{ assert (Hraise : snd (dispatch json_loads ke line w) = w).
      { unfold dispatch. destruct (String.eqb_spec (strip line) ""); [tauto|].
        unfold bind, try_except, perform, ret. rewrite Hreq.
        now destruct (is_instance JSONDecodeError (Err e)). }
      rewrite Hraise. exact Hsame. }
  rewrite (dispatch_parsed _ _ _ _ _ Hline Hreq). unfold bind, lift.
  destruct (py_get req "id" PNone) as [req_id|e] eqn:Hid; [|exact Hsame].
  destruct (py_get req "action" PNone) as [action|e]; [|exact Hsame].
  simpl.
  destruct (eq_str action "execute").
  { destruct (py_get req "code" (PStr "")) as [code|e]; [|exact Hsame].
    unfold call, register_msg, ret.
    destruct (kc_execute ke) as [msg_id|e] eqn:Hexec; simpl.
    - exists [KcExecute code], [], (<[msg_id := req_id]> (msg_map w)).
      rewrite app_nil_r. split; [reflexivity|]. split; [eauto|]. intros r [].
    - exists [KcExecute code], [], (msg_map w).
      rewrite app_nil_r. split; [reflexivity|]. split; [auto|]. intros r []. }
  assert (Hquiet : forall calls,
    exists calls' outs m',
      mkWorld (msg_map w) (stdout w) (stop_event w) (kernel_log w ++ calls)
        = mkWorld m' (stdout w ++ outs) (stop_event w) (kernel_log w ++ calls')
      /\ (m' = msg_map w
          \/ exists msg_id v, kc_execute ke = Done msg_id
                              /\ m' = <[msg_id := v]> (msg_map w))
      /\ forall r, In r outs ->
           exists req0 req_id0 evalue,
             Done req = Done req0
             /\ py_get req0 "id" PNone = Ok req_id0
             /\ (r = restarted_response req_id0
                 \/ r = request_error req_id0 "InterruptError" evalue
                 \/ r = request_error req_id0 "RestartError" evalue)).
  { intros calls. exists calls, [], (msg_map w). rewrite app_nil_r.
    split; [reflexivity|]. split; [auto|]. intros r []. }
  assert (Hone : forall calls r,
    (exists evalue,
       r = restarted_response req_id
       \/ r = request_error req_id "InterruptError" evalue
       \/ r = request_error req_id "RestartError" evalue) ->
    exists calls' outs m',
      mkWorld (msg_map w) (stdout w ++ [r]) (stop_event w)
              (kernel_log w ++ calls)
        = mkWorld m' (stdout w ++ outs) (stop_event w) (kernel_log w ++ calls')
      /\ (m' = msg_map w
          \/ exists msg_id v, kc_execute ke = Done msg_id
                              /\ m' = <[msg_id := v]> (msg_map w))
      /\ forall r, In r outs ->
           exists req0 req_id0 evalue,
             Done req = Done req0
             /\ py_get req0 "id" PNone = Ok req_id0
             /\ (r = restarted_response req_id0
                 \/ r = request_error req_id0 "InterruptError" evalue
                 \/ r = request_error req_id0 "RestartError" evalue)).
  { intros calls r [evalue Hr]. exists calls, [r], (msg_map w).
    split; [reflexivity|]. split; [auto|]. intros r' [<-|[]].
    exists req, req_id, evalue. auto. }
  destruct (eq_str action "interrupt").
  { unfold try_except, call, ret.
    destruct (km_interrupt_kernel ke) as [[]|e]; simpl.
    - apply Hquiet.
    - rewrite emit_result. unfold printed_or_raised, printed.
      destruct (encodable _); simpl; [|apply Hquiet].
      apply Hone. exists (err_str e). auto. }
  destruct (eq_str action "restart").
  { unfold try_except, bind, call, ret. simpl.
    destruct (km_restart_kernel ke) as [[]|e]; simpl;
      [destruct (kc_wait_for_ready ke) as [[]|e]; simpl|];
      repeat (rewrite emit_result; unfold printed_or_raised, printed;
              destruct (encodable _); simpl);
      rewrite <- ?app_assoc;
      try apply Hquiet; apply Hone;
      first [ now (exists ""; auto) | eexists; eauto ]. }
  destruct (eq_str action "shutdown"); exact Hsame.
Qed.

Lemma step_keeps_entry msg_id a w :
  reissues msg_id a = false ->
  msg_map (step json_loads w a) !! msg_id = msg_map w !! msg_id.
Proof.
  destruct a as [line ke|poll]; simpl; intros Hfresh.
  - destruct (dispatch_effect ke line w)
      as (calls & outs & m' & -> & [->|(m & v & Hexec & ->)] & _);
      simpl; [reflexivity|].
    rewrite Hexec in Hfresh. apply lookup_insert_ne.
    intros ->. now rewrite String.eqb_refl in Hfresh.
  - destruct (stop_event w) eqn:Hstop.
    + now rewrite (iopub_iteration_stopped _ _ Hstop).
    + destruct poll as [msg|e].
      * rewrite (iopub_iteration_received _ _ Hstop). simpl.
        now destruct (handle_iopub_msg_effect msg (polled w)) as (outs & -> & _).
      * now rewrite (iopub_iteration_poll_fails _ _ Hstop).
Qed.

Lemma run_keeps_entry msg_id acts :
  forall w,
    never_reissued msg_id acts ->
    msg_map (run json_loads acts w) !! msg_id = msg_map w !! msg_id.
Proof.
  unfold never_reissued, run.
  induction acts as [|a acts IH]; intros w; simpl; [reflexivity|].
  intros Hfresh. apply andb_true_iff in Hfresh as [Ha Hacts].
  rewrite (IH _ Hacts). apply step_keeps_entry. now destruct (reissues msg_id a).
Qed.

End Correlation.

Section CorrelationTheorems.

Context `{Strip}.
Variable json_loads : string -> outcome pyval.

(** C1. An execute request is handled: [kc.execute] returns the kernel
    message id [msg_id] (a non-empty string, as the ids of a kernel are) and
    the main loop registers it.  Then, after any further turns of the two
    loops in which the kernel does not hand out [msg_id] a second time,
    every message whose parent header names [msg_id] resolves to the id of
    the request, and every response printed for it carries that id: the
    turn of the listener that receives a stream, an error, an execute
    result, display data or a busy or idle status prints the response of
    that kind with the id of the request (given that standard output can
    encode the response). *)
Theorem execute_events_resolve_to_request_id :
  forall (ke : kernel_env) (line : string) (req req_id : pyval)
         (msg_id : string) (w : world) (acts : list action) (msg : pyval),
    strip line <> "" ->
    json_loads (strip line) = Done req ->
    py_get req "action" PNone = Ok (PStr "execute") ->
    py_get req "id" PNone = Ok req_id ->
    kc_execute ke = Done msg_id ->
    msg_id <> "" ->
    never_reissued msg_id acts ->
    parent_msg_id msg = Ok (PStr msg_id) ->
    let w1 := snd (dispatch json_loads ke line w) in
    let w2 := run json_loads acts w1 in
    msg_map w1 = <[msg_id := req_id]> (msg_map w)
    /\ fst (get_req_id msg w2) = Ok req_id
    /\ (exists outs,
          stdout (snd (iopub_iteration (Done msg) w2))
            = (stdout w2 ++ outs)%list
          /\ Forall (carries_id req_id) outs)
    /\ (stop_event w2 = false -> relays_with_id msg w2 req_id).
Proof.
  intros ke line req req_id msg_id w acts msg
    Hline Hreq Haction Hid Hexec Hne Hfresh Hparent w1 w2.
  assert (Hcode : exists code, py_get req "code" (PStr "") = Ok code).
  { destruct req; try discriminate. eexists; reflexivity. }
  destruct Hcode as [code Hcode].
  assert (Hw1 : msg_map w1 = <[msg_id := req_id]> (msg_map w)).
  { unfold w1.
    now rewrite (dispatch_execute json_loads _ _ _ _ _ _ _
                   Hline Hreq Haction Hid Hcode Hexec). }
  assert (Hresolve : fst (get_req_id msg w2) = Ok req_id).
  { rewrite (get_req_id_lookup _ _ _ Hparent Hne). unfold w2.
    rewrite (run_keeps_entry json_loads _ _ _ Hfresh), Hw1.
    now rewrite lookup_insert_eq. }
  split; [exact Hw1|]. split; [exact Hresolve|]. split.
  - destruct (iopub_iteration_effect msg w2) as (outs & Hw & Hids).
    exists outs. split; [exact Hw|].
    apply List.Forall_forall. intros r Hr.
    destruct (Hids r Hr) as (v & Hv & Hcarries). congruence.
  - intros Hstop. now apply iopub_iteration_relays.
Qed.

(** C10. An execute request without an [id] is handled like any other:
    the code is passed to [kc.execute] and the kernel message id is
    registered, mapped to [None].  The messages of that execution then
    resolve to [None], and they are not dropped: the turn of the listener
    that receives one prints the response of its kind with [null] as id. *)
Theorem execute_without_id_registers_null :
  forall (ke : kernel_env) (line : string) (d : pydict) (code : pyval)
         (msg_id : string) (w : world) (acts : list action) (msg : pyval),
    strip line <> "" ->
    json_loads (strip line) = Done (PDict d) ->
    dict_lookup d "action" = Some (PStr "execute") ->
    dict_lookup d "id" = None ->
    py_get (PDict d) "code" (PStr "") = Ok code ->
    kc_execute ke = Done msg_id ->
    msg_id <> "" ->
    never_reissued msg_id acts ->
    parent_msg_id msg = Ok (PStr msg_id) ->
    let w1 := snd (dispatch json_loads ke line w) in
    let w2 := run json_loads acts w1 in
    fst (dispatch json_loads ke line w) = Ok Continue
    /\ kernel_log w1 = (kernel_log w ++ [KcExecute code])%list
    /\ msg_map w1 = <[msg_id := PNone]> (msg_map w)
    /\ fst (get_req_id msg w2) = Ok PNone
    /\ (exists outs,
          stdout (snd (iopub_iteration (Done msg) w2))
            = (stdout w2 ++ outs)%list
          /\ Forall (carries_id PNone) outs)
    /\ (stop_event w2 = false -> relays_with_id msg w2 PNone).
Proof.
  intros ke line d code msg_id w acts msg
    Hline Hreq Haction Hid Hcode Hexec Hne Hfresh Hparent w1 w2.
  assert (Hdispatch : dispatch json_loads ke line w
            = (Ok Continue, registered (called w [KcExecute code]) msg_id PNone)).
  { apply (dispatch_execute json_loads _ _ (PDict d)); try assumption.
    - simpl. now rewrite Haction.
    - simpl. now rewrite Hid. }
  assert (Hresolve : fst (get_req_id msg w2) = Ok PNone).
  { rewrite (get_req_id_lookup _ _ _ Hparent Hne). unfold w2, w1.
    rewrite (run_keeps_entry json_loads _ _ _ Hfresh), Hdispatch. simpl.
    now rewrite lookup_insert_eq. }
  unfold w1 at 1 2. rewrite Hdispatch. simpl.
  repeat (split; [reflexivity|]). split; [exact Hresolve|].
  split.
  - destruct (iopub_iteration_effect msg w2) as (outs & Hw & Hids).
    exists outs. split; [exact Hw|].
    apply List.Forall_forall. intros r Hr.
    destruct (Hids r Hr) as (v & Hv & Hcarries). congruence.
  - intros Hstop. now apply iopub_iteration_relays.
Qed.

(** C2, as the code has it.  A response printed by the listener carries
    the result of [get_req_id] on the message that caused it, and such an
    id, when it is not null, is the entry of the map under the parent
    message id.  A response printed by the main loop (the error of a failed
    interrupt, the status or error of a restart) carries the id of the
    request itself, read from the line. *)
Theorem response_id_from_lookup_or_request :
  forall (a : action) (w : world) (outs : list pyval) (r : pyval),
    stdout (step json_loads w a) = (stdout w ++ outs)%list ->
    In r outs ->
    match a with
    | ListenerPolls poll =>
        exists msg v,
          poll = Done msg
          /\ fst (get_req_id msg w) = Ok v
          /\ carries_id v r
          /\ (v <> PNone ->
              exists key, parent_msg_id msg = Ok (PStr key)
                          /\ msg_map w !! key = Some v)
    | MainHandles line ke =>
        exists req req_id evalue,
          json_loads (strip line) = Done req
          /\ py_get req "id" PNone = Ok req_id
          /\ (r = restarted_response req_id
              \/ r = request_error req_id "InterruptError" evalue
              \/ r = request_error req_id "RestartError" evalue)
    end.
Proof.
  intros [line ke|poll] w outs r Hout Hr; simpl in Hout.
  - destruct (dispatch_effect json_loads ke line w)
      as (calls & outs' & m' & Hw & _ & Hids).
    rewrite Hw in Hout. simpl in Hout. apply app_inv_head in Hout as <-.
    now apply Hids.
  - destruct (stop_event w) eqn:Hstop.
    { rewrite (iopub_iteration_stopped _ _ Hstop) in Hout. simpl in Hout.
      rewrite <- (app_nil_r (stdout w)) in Hout at 1.
      apply app_inv_head in Hout as <-. destruct Hr. }
    destruct poll as [msg|e].
    2:{ rewrite (iopub_iteration_poll_fails _ _ Hstop) in Hout. simpl in Hout.
        rewrite <- (app_nil_r (stdout w)) in Hout at 1.
        apply app_inv_head in Hout as <-. destruct Hr. }
    rewrite (iopub_iteration_received _ _ Hstop) in Hout. simpl in Hout.
    destruct (handle_iopub_msg_effect msg (polled w)) as (outs' & Hw & _ & Hids).
    rewrite Hw in Hout. simpl in Hout. apply app_inv_head in Hout as <-.
    destruct (Hids r Hr) as (v & Hv & Hcarries).
    rewrite <- (get_req_id_msg_map msg w (polled w) eq_refl) in Hv.
    exists msg, v. repeat split; try assumption.
    intros Hnull. now apply get_req_id_from_map.
Qed.

End CorrelationTheorems.

(** ** Start-up *)

Section StartUpFailure.

Context `{Strip}.


End StartUpFailure.

(** ** The output writer under two threads *)

Section OutputWriterProperties.

Variable json_dumps : pyval -> string.

Lemma lines_of_snoc objs obj :
  lines_of json_dumps (objs ++ [obj]) = (lines_of json_dumps objs ++ line_of json_dumps obj)%list.
Proof.
  unfold lines_of. rewrite map_app, concat_app. simpl.
  now rewrite app_nil_r.
Qed.

Lemma thread_eqb_eq t u : thread_eqb t u = true <-> t = u.
Proof. destruct t, u; simpl; split; congruence. Qed.

Lemma pc_set_pc s t p lock out u :
  pc (set_pc s t p lock out) u = if thread_eqb u t then p else pc s u.
Proof. now destruct t, u. Qed.

Lemma emit_lock_set_pc s t p lock out :
  emit_lock (set_pc s t p lock out) = lock.
Proof. now destruct t. Qed.

Lemma stream_set_pc s t p lock out : stream (set_pc s t p lock out) = out.
Proof. now destruct t. Qed.

(** A thread that is printing holds the lock. *)
Lemma printing_holds_lock C s t obj rest :
  line_integrity json_dumps C s -> pc s t = Printing obj rest ->
  emit_lock s = Some t.
Proof.
  intros (objs & partial & _ & _ & _ & Hlock) Ht.
  destruct (emit_lock s) as [holder|].
  - destruct Hlock as [_ Hothers].
    destruct (thread_eqb t holder) eqn:Heq.
    + apply thread_eqb_eq in Heq. now subst.
    + specialize (Hothers t Heq). rewrite Ht in Hothers. destruct Hothers.
  - destruct Hlock as [_ Hn]. specialize (Hn t). rewrite Ht in Hn.
    destruct Hn.
Qed.

(** One step keeps the stream in shape, and adds to the whole lines the
    line of the object the step releases. *)
Lemma writer_step_written (C : pyval -> Prop) objs s ev :
  (forall t obj, ev = CallEmit t obj -> C obj) ->
  lines_written json_dumps C objs s ->
  lines_written json_dumps C (objs ++ releases s ev)
    (writer_step json_dumps s ev).
Proof.
  intros Hcall Hinv.
  assert (Hint : line_integrity json_dumps C s) by (now exists objs).
  pose proof Hinv as (partial & Hstream & Hobjs & Hpc & Hlock).
  destruct ev as [t obj|t]; simpl.
  - (* emit is called *)
    rewrite app_nil_r.
    destruct (pc s t) eqn:Ht; try exact Hinv.
    exists partial.
    rewrite stream_set_pc, emit_lock_set_pc.
    split; [exact Hstream|]. split; [exact Hobjs|]. split.
    { intros u. rewrite pc_set_pc. destruct (thread_eqb u t); [|apply Hpc].
      simpl. now apply (Hcall t). }
    destruct (emit_lock s) as [holder|].
    + destruct Hlock as [(obj' & rest' & Hholder & Hline) Hothers]. split.
      * exists obj', rest'. split; [|exact Hline]. rewrite pc_set_pc.
        destruct (thread_eqb holder t) eqn:Heq; [|exact Hholder].
        apply thread_eqb_eq in Heq. congruence.
      * intros u Hu. rewrite pc_set_pc.
        destruct (thread_eqb u t); [exact I | now apply Hothers].
    + destruct Hlock as [Hpartial Hn]. split; [exact Hpartial|].
      intros u. rewrite pc_set_pc. destruct (thread_eqb u t); [exact I | apply Hn].
  - destruct (pc s t) as [|obj|obj [|c rest]] eqn:Ht;
      rewrite ?app_nil_r; try exact Hinv.
    + (* the lock is taken if it is free *)
      destruct (emit_lock s) as [holder|] eqn:Hl; [exact Hinv|].
      destruct Hlock as [-> Hn].
      exists [].
      destruct (encodable obj);
        rewrite stream_set_pc, emit_lock_set_pc;
        (split; [exact Hstream|]); (split; [exact Hobjs|]); split.
      * intros u. rewrite pc_set_pc.
        destruct (thread_eqb u t) eqn:Heq; [|apply Hpc].
        specialize (Hpc t). now rewrite Ht in Hpc.
      * split.
        -- exists obj, (line_of json_dumps obj). rewrite pc_set_pc.
           now rewrite (proj2 (thread_eqb_eq t t) eq_refl).
        -- intros u Hu. rewrite pc_set_pc, Hu. apply Hn.
      * (* the line cannot be encoded: nothing is written *)
        intros u. rewrite pc_set_pc.
        destruct (thread_eqb u t); [exact I | apply Hpc].
      * split; [reflexivity|].
        intros u. rewrite pc_set_pc.
        destruct (thread_eqb u t); [exact I | apply Hn].
    + (* the line is out: the lock is released *)
      pose proof (printing_holds_lock _ _ _ _ _ Hint Ht) as Hl.
      rewrite Hl in Hlock.
      destruct Hlock as [(obj' & rest' & Hholder & Hline) Hothers].
      rewrite Ht in Hholder. injection Hholder as <- <-.
      rewrite app_nil_r in Hline. subst partial.
      exists [].
      rewrite stream_set_pc, emit_lock_set_pc, lines_of_snoc, app_nil_r.
      split; [exact Hstream|]. split.
      { apply Forall_app. split; [exact Hobjs|]. constructor; [|constructor].
        specialize (Hpc t). now rewrite Ht in Hpc. }
      split.
      { intros u. rewrite pc_set_pc.
        destruct (thread_eqb u t); [exact I | apply Hpc]. }
      split; [reflexivity|].
      intros u. rewrite pc_set_pc.
      destruct (thread_eqb u t) eqn:Heq; [exact I | now apply Hothers].
    + (* one more character of the line *)
      pose proof (printing_holds_lock _ _ _ _ _ Hint Ht) as Hl.
      rewrite Hl in Hlock.
      destruct Hlock as [(obj' & rest' & Hholder & Hline) Hothers].
      rewrite Ht in Hholder. injection Hholder as <- <-.
      exists (partial ++ [c])%list.
      rewrite stream_set_pc, emit_lock_set_pc, Hl.
      split; [now rewrite Hstream, app_assoc|]. split; [exact Hobjs|]. split.
      { intros u. rewrite pc_set_pc.
        destruct (thread_eqb u t) eqn:Heq; [|apply Hpc].
        specialize (Hpc t). now rewrite Ht in Hpc. }
      split.
      * exists obj, rest. rewrite pc_set_pc.
        rewrite (proj2 (thread_eqb_eq t t) eq_refl).
        split; [reflexivity | now rewrite <- app_assoc].
      * intros u Hu. rewrite pc_set_pc, Hu. now apply Hothers.
Qed.

Lemma run_writers_written sched :
  forall (C : pyval -> Prop) objs s,
    (forall obj, emit_called sched obj -> C obj) ->
    lines_written json_dumps C objs s ->
    lines_written json_dumps C (objs ++ released json_dumps sched s)
      (run_writers json_dumps sched s).
Proof.
  unfold run_writers.
  induction sched as [|ev sched IH]; intros C objs s Hcalled Hinv; simpl.
  - now rewrite app_nil_r.
  - rewrite app_assoc. apply IH.
    + intros obj [t Ht]. apply Hcalled. exists t. now right.
    + apply writer_step_written; [|exact Hinv].
      intros t obj ->. apply Hcalled. exists t. now left.
Qed.

Lemma writers_start_written C : lines_written json_dumps C [] writers_start.
Proof.
  exists []. simpl. repeat split; try constructor; intros []; exact I.
Qed.

Lemma run_writers_integrity sched :
  forall (C : pyval -> Prop),
    (forall obj, emit_called sched obj -> C obj) ->
    line_integrity json_dumps C (run_writers json_dumps sched writers_start).
Proof.
  intros C Hcalled. exists (released json_dumps sched writers_start).
  apply (run_writers_written sched C [] writers_start Hcalled).
  apply writers_start_written.
Qed.

Lemma set_pc_again s t p lock out p' lock' out' :
  set_pc (set_pc s t p lock out) t p' lock' out' = set_pc s t p' lock' out'.
Proof. now destruct t. Qed.

Lemma advance_prints_rest t obj rest :
  forall s,
    pc s t = Printing obj rest ->
    run_writers json_dumps (repeat (Advance t) (length rest)) s
      = set_pc s t (Printing obj []) (emit_lock s) (stream s ++ rest).
Proof.
  unfold run_writers.
  induction rest as [|c rest IH]; intros s Ht; simpl.
  - rewrite app_nil_r. destruct s, t; simpl in *; now subst.
  - rewrite Ht. rewrite IH.
    + rewrite set_pc_again, emit_lock_set_pc, stream_set_pc.
      now rewrite <- app_assoc.
    + rewrite pc_set_pc. now rewrite (proj2 (thread_eqb_eq t t) eq_refl).
Qed.

Lemma advance_outside t n :
  forall s, pc s t = Outside ->
    run_writers json_dumps (repeat (Advance t) n) s = s.
Proof.
  unfold run_writers.
  induction n as [|n IH]; intros s Ht; simpl; [reflexivity|].
  rewrite Ht. now apply IH.
Qed.

Lemma pc_set_pc_same s t p lock out : pc (set_pc s t p lock out) t = p.
Proof. now destruct t. Qed.

Lemma pc_set_pc_other s t u p lock out :
  thread_eqb t u = false -> pc (set_pc s u p lock out) t = pc s t.
Proof. now destruct t, u. Qed.

Lemma run_writers_app l1 l2 s :
  run_writers json_dumps (l1 ++ l2) s
    = run_writers json_dumps l2 (run_writers json_dumps l1 s).
Proof. apply fold_left_app. Qed.

(** The steps of a thread that is at [with _emit_lock] and finds the lock
    free. *)
Lemma emit_runs_alone t obj s :
  pc s t = Acquiring obj ->
  emit_lock s = None ->
  run_writers json_dumps
    (repeat (Advance t) (length (line_of json_dumps obj) + 2)) s
  = set_pc s t Outside None
      (if encodable obj then (stream s ++ line_of json_dumps obj)%list
       else stream s).
Proof.
  intros Ht Hlock.
  replace (length (line_of json_dumps obj) + 2)%nat
    with (1 + (length (line_of json_dumps obj) + 1))%nat by lia.
  rewrite repeat_app, run_writers_app.
  assert (Hfirst : run_writers json_dumps (repeat (Advance t) 1) s
            = if encodable obj
              then set_pc s t (Printing obj (line_of json_dumps obj))
                     (Some t) (stream s)
              else set_pc s t Outside None (stream s)).
  { unfold run_writers. simpl. now rewrite Ht, Hlock. }
  rewrite Hfirst. destruct (encodable obj).
  - rewrite repeat_app, run_writers_app.
    rewrite (advance_prints_rest t obj (line_of json_dumps obj));
      [|apply pc_set_pc_same].
    unfold run_writers. simpl.
    rewrite pc_set_pc_same.
    now rewrite !set_pc_again, !stream_set_pc.
  - apply advance_outside. apply pc_set_pc_same.
Qed.













End OutputWriterProperties.

(** * Further properties *)

(** ** The main loop, request by request *)

Section MainLoopProperties.

Context `{Strip}.
Variable json_loads : string -> outcome pyval.

(** X1. An interrupt request is answered only when it fails: when
    [km.interrupt_kernel()] returns nothing is printed and the loop goes on;
    when it raises, the one response
    [{id, type: "error", ename: "InterruptError", evalue: str(e)}] is
    printed with the id of the request and the loop goes on, unless the id
    cannot be encoded: then [print] raises in the handler, nothing is
    printed and the exception leaves the loop body. *)
Theorem interrupt_reports_failure_only :
  forall (ke : kernel_env) (line : string) (req req_id : pyval) (w : world),
    strip line <> "" ->
    json_loads (strip line) = Done req ->
    py_get req "action" PNone = Ok (PStr "interrupt") ->
    py_get req "id" PNone = Ok req_id ->
    dispatch json_loads ke line w =
      match km_interrupt_kernel ke with
      | Done _ => (Ok Continue, called w [KmInterruptKernel])
      | Fails e =>
          if encodable req_id
          then (Ok Continue,
                printed (called w [KmInterruptKernel])
                  [request_error req_id "InterruptError" (err_str e)])
          else (Raise unicode_encode_error, called w [KmInterruptKernel])
      end.
Proof.
  intros ke line req req_id w Hline Hreq Haction Hid.
  rewrite (dispatch_parsed _ _ _ _ _ Hline Hreq).
  unfold bind, lift. rewrite Hid, Haction. simpl.
  unfold try_except, call, ret.
  destruct (km_interrupt_kernel ke) as [[]|e]; simpl; [reflexivity|].
  rewrite emit_result. unfold printed_or_raised.
  rewrite (encodable_request_error req_id "InterruptError" _ eq_refl
             (err_str_utf8 e)).
  now destruct (encodable req_id).
Qed.

Lemma teardown_exact te w :
  teardown te w =
    (Ok tt, mkWorld (msg_map w) (stdout w) true
              (kernel_log w ++ teardown_calls te)).
Proof.
  unfold teardown, finally_block, teardown_calls, bind, try_except, call,
    ret.
  simpl.
  destruct (kc_stop_channels te) as [[]|e]; simpl; [|reflexivity].
  destruct (km_shutdown_kernel te) as [[]|e]; simpl;
    now rewrite <- app_assoc.
Qed.

(** X2. The clean-up of [main] sets the stop event and calls
    [kc.stop_channels()], then [km.shutdown_kernel(now=True)] unless
    stopping the channels raised.  An [Exception] of either call is
    swallowed: with the calls into jupyter_client the block returns, prints
    nothing and leaves the message map as it is.  What is not an
    [Exception] ([KeyboardInterrupt], [SystemExit]) is not caught: raised
    within either call it leaves the block, the stop event being set. *)
Theorem teardown_swallows_errors :
  forall (te : teardown_env) (w : world),
    (fst (teardown te w) = Ok tt
     /\ stop_event (snd (teardown te w)) = true
     /\ stdout (snd (teardown te w)) = stdout w
     /\ msg_map (snd (teardown te w)) = msg_map w
     /\ kernel_log (snd (teardown te w))
        = (kernel_log w ++ teardown_calls te)%list)
    /\ (forall (stop_channels shutdown_kernel : M unit) (e : exn) (w1 : world),
        stop_channels (mkWorld (msg_map w) (stdout w) true (kernel_log w))
          = (Raise e, w1) ->
        finally_block stop_channels shutdown_kernel w
          = if is_Exception e then (Ok tt, w1) else (Raise e, w1))
    /\ (forall (stop_channels shutdown_kernel : M unit) (e : exn)
               (w1 w2 : world),
        stop_channels (mkWorld (msg_map w) (stdout w) true (kernel_log w))
          = (Ok tt, w1) ->
        shutdown_kernel w1 = (Raise e, w2) ->
        finally_block stop_channels shutdown_kernel w
          = if is_Exception e then (Ok tt, w2) else (Raise e, w2)).
Proof.
  intros te w. split; [|split].
  - rewrite teardown_exact. simpl. auto.
  - intros stop_channels shutdown_kernel e w1 Hstop.
    unfold finally_block, bind, try_except, ret. simpl. now rewrite Hstop.
  - intros stop_channels shutdown_kernel e w1 w2 Hstop Hshutdown.
    unfold finally_block, bind, try_except, ret. simpl.
    now rewrite Hstop, Hshutdown.
Qed.

Lemma main_loop_exact input te w :
  main_loop json_loads input te w =
    (match fst (for_lines json_loads input w) with
     | Ok _ => Ok tt
     | Raise e => if ends_input e then Ok tt else Raise e
     end,
     mkWorld (msg_map (snd (for_lines json_loads input w)))
       (stdout (snd (for_lines json_loads input w))) true
       (kernel_log (snd (for_lines json_loads input w)) ++ teardown_calls te)).
Proof.
  unfold main_loop, try_finally, try_except, ends_input.
  destruct (for_lines json_loads input w) as [[[]|e] w1].
  - cbn -[teardown]. now rewrite teardown_exact.
  - cbn -[teardown]. destruct (_ || _); unfold ret;
      now rewrite teardown_exact.
Qed.

(** X3. However the reading loop ends (end of input, [shutdown], an
    exception), [main] sets the stop event and tears the kernel down, and
    prints nothing more.  [EOFError] and [KeyboardInterrupt] end the loop
    quietly; any other exception is raised again after the clean-up. *)
Theorem main_loop_always_tears_down :
  forall (input : list stdin_item) (te : teardown_env) (w : world),
    stop_event (snd (main_loop json_loads input te w)) = true
    /\ stdout (snd (main_loop json_loads input te w))
       = stdout (snd (for_lines json_loads input w))
    /\ msg_map (snd (main_loop json_loads input te w))
       = msg_map (snd (for_lines json_loads input w))
    /\ kernel_log (snd (main_loop json_loads input te w))
       = (kernel_log (snd (for_lines json_loads input w))
          ++ teardown_calls te)%list
    /\ fst (main_loop json_loads input te w)
       = match fst (for_lines json_loads input w) with
         | Ok _ => Ok tt
         | Raise e => if ends_input e then Ok tt else Raise e
         end.
Proof.
  intros input te w. rewrite main_loop_exact. simpl. auto.
Qed.

(** X4. A shutdown request ends the loop at once: nothing is printed for
    it, the kernel is not called before the clean-up, the lines after it are
    not read, and the process exits with status 0. *)
Theorem shutdown_ends_loop :
  forall (ke : kernel_env) (line : string) (req : pyval)
         (rest : list stdin_item) (te : teardown_env) (w : world),
    strip line <> "" ->
    json_loads (strip line) = Done req ->
    py_get req "action" PNone = Ok (PStr "shutdown") ->
    dispatch json_loads ke line w = (Ok Break, w)
    /\ for_lines json_loads (Line line ke :: rest) w = (Ok tt, w)
    /\ main_loop json_loads (Line line ke :: rest) te w
       = (Ok tt, mkWorld (msg_map w) (stdout w) true
                   (kernel_log w ++ teardown_calls te))
    /\ exit_status (fst (main_loop json_loads (Line line ke :: rest) te w)) = 0.
Proof.
  intros ke line req rest te w Hline Hreq Haction.
  assert (Hdispatch : dispatch json_loads ke line w = (Ok Break, w)).
  { rewrite (dispatch_parsed _ _ _ _ _ Hline Hreq).
    assert (Hid : exists v, py_get req "id" PNone = Ok v).
    { destruct req; try discriminate. eexists; reflexivity. }
    destruct Hid as [v Hid]. unfold bind, lift. now rewrite Hid, Haction. }
  assert (Hfor : for_lines json_loads (Line line ke :: rest) w = (Ok tt, w)).
  { simpl. unfold bind. now rewrite Hdispatch. }
  split; [exact Hdispatch|]. split; [exact Hfor|].
  rewrite main_loop_exact, Hfor. simpl. auto.
Qed.

(** X5. An interruption from the keyboard or an [EOFError] while a line
    is read ends the process like the end of the input does: nothing is
    printed, the lines after it are not read, the clean-up runs and the
    status is 0.  Any other exception of the read comes out of [main] after
    the clean-up, and the status is not 0. *)
Theorem interrupted_read_ends_gracefully :
  forall (e : exn) (rest : list stdin_item) (te : teardown_env) (w : world),
    main_loop json_loads [] te w
      = (Ok tt, mkWorld (msg_map w) (stdout w) true
                  (kernel_log w ++ teardown_calls te))
    /\ snd (main_loop json_loads (ReadRaises e :: rest) te w)
       = snd (main_loop json_loads [] te w)
    /\ (ends_input e = true ->
        fst (main_loop json_loads (ReadRaises e :: rest) te w) = Ok tt
        /\ exit_status (fst (main_loop json_loads (ReadRaises e :: rest) te w))
           = 0)
    /\ (ends_input e = false ->
        fst (main_loop json_loads (ReadRaises e :: rest) te w) = Raise e).
Proof.
  intros e rest te w. rewrite !main_loop_exact. simpl.
  split; [reflexivity|]. split; [reflexivity|].
  split; intros ->; auto.
Qed.

End MainLoopProperties.

Section ExecuteAndSkippedLines.

Context `{Strip}.
Variable json_loads : string -> outcome pyval.

(** X6. An execute request never prints anything by itself.  The code
    passed to [kc.execute] is the value under ["code"], the empty string when
    the key is missing.  When the call returns, the id it returns is
    registered for the id of the request ([None] when missing); when it
    raises, nothing is registered, the exception leaves the loop and the
    lines after the request are not read. *)
Theorem execute_submits_code_and_prints_nothing :
  forall (ke : kernel_env) (line : string) (d : pydict)
         (rest : list stdin_item) (w : world),
    strip line <> "" ->
    json_loads (strip line) = Done (PDict d) ->
    dict_lookup d "action" = Some (PStr "execute") ->
    let code :=
      match dict_lookup d "code" with Some c => c | None => PStr "" end in
    let req_id :=
      match dict_lookup d "id" with Some v => v | None => PNone end in
    dispatch json_loads ke line w =
      match kc_execute ke with
      | Done msg_id =>
          (Ok Continue, registered (called w [KcExecute code]) msg_id req_id)
      | Fails e => (Raise (Err e), called w [KcExecute code])
      end
    /\ stdout (snd (dispatch json_loads ke line w)) = stdout w
    /\ for_lines json_loads (Line line ke :: rest) w =
       match kc_execute ke with
       | Done msg_id =>
           for_lines json_loads rest
             (registered (called w [KcExecute code]) msg_id req_id)
       | Fails e => (Raise (Err e), called w [KcExecute code])
       end.
Proof.
  intros ke line d rest w Hline Hreq Haction code req_id.
  assert (Hdispatch : dispatch json_loads ke line w =
      match kc_execute ke with
      | Done msg_id =>
          (Ok Continue, registered (called w [KcExecute code]) msg_id req_id)
      | Fails e => (Raise (Err e), called w [KcExecute code])
      end).
  { rewrite (dispatch_parsed _ _ _ _ _ Hline Hreq).
    unfold bind, lift. simpl. rewrite Haction. simpl.
    fold code. fold req_id. unfold call.
    now destruct (kc_execute ke) as [msg_id|e]. }
  split; [exact Hdispatch|]. split.
  - rewrite Hdispatch. now destruct (kc_execute ke).
  - simpl. unfold bind. rewrite Hdispatch. now destruct (kc_execute ke).
Qed.

(** X7. Blank lines, lines that are not JSON and objects without a known
    action leave no trace: the loop does for the input what it does for the
    input without them in front, and an input made of such lines only prints
    nothing, calls nothing and registers nothing. *)
Theorem ignored_lines_leave_no_trace :
  forall (skipped rest : list stdin_item) (w : world),
    Forall (ignored_item json_loads) skipped ->
    for_lines json_loads (skipped ++ rest) w = for_lines json_loads rest w
    /\ for_lines json_loads skipped w = (Ok tt, w).
Proof.
  intros skipped rest w Hskipped.
  assert (Hgen : forall tail,
            for_lines json_loads (skipped ++ tail) w
            = for_lines json_loads tail w).
  { intros tail. induction Hskipped as [|item items Hitem _ IH];
      [reflexivity|].
    destruct item as [line ke|e]; [|destruct Hitem].
    rewrite <- IH. apply for_lines_skips_ignored. exact Hitem. }
  split; [apply Hgen|]. rewrite <- (app_nil_r skipped). now rewrite Hgen.
Qed.

End ExecuteAndSkippedLines.

(** ** The listener, turn by turn *)

Lemma iopub_iteration_frame poll w :
  stop_event w = false ->
  exists outs,
    snd (iopub_iteration poll w) = printed (polled w) outs
    /\ (length outs <= 1)%nat.
Proof.
  destruct poll as [msg|e]; intros Hstop.
  - rewrite (iopub_iteration_received _ _ Hstop). simpl.
    destruct (handle_iopub_msg_effect msg (polled w)) as (outs & Hw & Hlen & _).
    now exists outs.
  - rewrite (iopub_iteration_poll_fails _ _ Hstop). exists [].
    rewrite printed_nil. simpl. auto.
Qed.

(** X10. While the stop event is not set, a turn of the listener calls
    [kc.get_iopub_msg(timeout=0.5)] once and prints at most one response; it
    never writes the message map and never touches the stop event. *)
Theorem listener_turn_prints_at_most_one :
  forall (poll : outcome pyval) (w : world),
    stop_event w = false ->
    exists outs,
      snd (iopub_iteration poll w) = printed (polled w) outs
      /\ (length outs <= 1)%nat
      /\ msg_map (snd (iopub_iteration poll w)) = msg_map w
      /\ stop_event (snd (iopub_iteration poll w)) = false
      /\ kernel_log (snd (iopub_iteration poll w))
         = (kernel_log w ++ [KcGetIopubMsg poll_timeout])%list.
Proof.
  intros poll w Hstop.
  destruct (iopub_iteration_frame poll w Hstop) as (outs & Hw & Hlen).
  exists outs. split; [exact Hw|]. split; [exact Hlen|].
  rewrite Hw. simpl. auto.
Qed.

(** X11. Polls that time out or raise keep the listener in its loop: it
    prints nothing, polls again each time, and is still running when they
    are used up. *)
Theorem failed_polls_keep_listener_running :
  forall (errors : list error) (w : world),
    stop_event w = false ->
    iopub_listener (map Fails errors) w
      = (Ok None,
         called w (repeat (KcGetIopubMsg poll_timeout) (length errors))).
Proof.
  induction errors as [|e errors IH]; intros w Hstop.
  - simpl. rewrite Hstop. now rewrite called_nil.
  - change (map Fails (e :: errors))
      with (@Fails pyval e :: map Fails errors).
    rewrite (iopub_listener_poll_fails _ _ _ Hstop), (IH (polled w) Hstop).
    unfold called, polled. simpl. now rewrite <- app_assoc.
Qed.

(** X13. A stream message is relayed with its name and text, an error
    message with its name, value and traceback as they are; what is missing
    in the content is filled in: ["stdout"] and [""] for a stream, ["Error"],
    [""] and [[]] for an error.  The response is printed when standard
    output can encode it; when it cannot, nothing is printed and
    [UnicodeEncodeError] leaves the loop body. *)
Theorem stream_and_error_relayed_with_defaults :
  forall (msg : pyval) (content : pydict) (req_id : pyval) (w : world),
    py_get msg "content" (PDict []) = Ok (PDict content) ->
    fst (get_req_id msg w) = Ok req_id ->
    (py_get msg "msg_type" (PStr "") = Ok (PStr "stream") ->
     handle_iopub_msg msg w =
       let response :=
         PDict [("id", req_id); ("type", PStr "stream");
                ("name", item_or content "name" (PStr "stdout"));
                ("text", item_or content "text" (PStr ""))] in
       if encodable response then (Ok tt, printed w [response])
       else (Raise unicode_encode_error, w))
    /\ (py_get msg "msg_type" (PStr "") = Ok (PStr "error") ->
        handle_iopub_msg msg w =
          let response :=
            PDict [("id", req_id); ("type", PStr "error");
                   ("ename", item_or content "ename" (PStr "Error"));
                   ("evalue", item_or content "evalue" (PStr ""));
                   ("traceback", item_or content "traceback" (PList []))] in
          if encodable response then (Ok tt, printed w [response])
          else (Raise unicode_encode_error, w)).
Proof.
  intros msg content req_id w Hcontent Hreq.
  destruct (handle_relayed_msg msg content req_id w Hcontent Hreq)
    as (Hstream & Herror & _).
  split; intros Htype; [exact (Hstream Htype) | exact (Herror Htype)].
Qed.

(** X14. An execute result and display data are relayed with their data
    flattened; the execution count goes with an execute result only, as the
    last field, [None] when the content has none.  When the data cannot be
    flattened nothing is printed and the exception leaves the loop body;
    so it is, with [UnicodeEncodeError], when the response cannot be
    encoded. *)
Theorem results_relayed_with_flat_data :
  forall (msg : pyval) (content : pydict) (req_id : pyval) (w : world),
    py_get msg "content" (PDict []) = Ok (PDict content) ->
    fst (get_req_id msg w) = Ok req_id ->
    (py_get msg "msg_type" (PStr "") = Ok (PStr "execute_result") ->
     handle_iopub_msg msg w =
       match flatten_data (item_or content "data" (PDict [])) with
       | Ok flat =>
           let response :=
             PDict [("id", req_id); ("type", PStr "execute_result");
                    ("data", flat);
                    ("execution_count",
                     item_or content "execution_count" PNone)] in
           if encodable response then (Ok tt, printed w [response])
           else (Raise unicode_encode_error, w)
       | Raise e => (Raise e, w)
       end)
    /\ (py_get msg "msg_type" (PStr "") = Ok (PStr "display_data") ->
        handle_iopub_msg msg w =
          match flatten_data (item_or content "data" (PDict [])) with
          | Ok flat =>
              let response :=
                PDict [("id", req_id); ("type", PStr "display_data");
                       ("data", flat)] in
              if encodable response then (Ok tt, printed w [response])
              else (Raise unicode_encode_error, w)
          | Raise e => (Raise e, w)
          end).
Proof.
  intros msg content req_id w Hcontent Hreq.
  destruct (handle_relayed_msg msg content req_id w Hcontent Hreq)
    as (_ & _ & Hresult & Hdisplay).
  split; intros Htype; [exact (Hresult Htype) | exact (Hdisplay Htype)].
Qed.

(** ** The message map *)

(** X15. What is registered is what is resolved: after
    [register_msg(k, v)] a message whose parent id is [k] resolves to [v],
    whatever was registered for [k] before, and a message with another
    parent id resolves as it did. *)
Theorem register_then_resolve :
  forall (k : string) (v : pyval) (parent : string) (msg : pyval) (w : world),
    parent_msg_id msg = Ok (PStr parent) ->
    parent <> "" ->
    fst (get_req_id msg (snd (register_msg k v w)))
      = if String.eqb k parent then Ok v else fst (get_req_id msg w).
Proof.
  intros k v parent msg w Hparent Hne.
  rewrite !(get_req_id_lookup _ _ _ Hparent Hne). simpl.
  destruct (String.eqb_spec k parent) as [->|Hk].
  - now rewrite lookup_insert_eq.
  - now rewrite lookup_insert_ne.
Qed.

(** X16. [get_req_id] only reads.  It returns [None] for a message without
    a parent header, with a parent header without [msg_id], with a [msg_id]
    that is [None], empty or otherwise false, and with a [msg_id] nobody
    registered. *)
Theorem unresolved_messages_get_none :
  forall (msg : pyval) (w : world),
    snd (get_req_id msg w) = w
    /\ (forall d, msg = PDict d -> dict_lookup d "parent_header" = None ->
        fst (get_req_id msg w) = Ok PNone)
    /\ (forall d h, msg = PDict d ->
        dict_lookup d "parent_header" = Some (PDict h) ->
        dict_lookup h "msg_id" = None ->
        fst (get_req_id msg w) = Ok PNone)
    /\ (forall p, parent_msg_id msg = Ok p -> truthy p = false ->
        fst (get_req_id msg w) = Ok PNone)
    /\ (forall k, parent_msg_id msg = Ok (PStr k) -> msg_map w !! k = None ->
        fst (get_req_id msg w) = Ok PNone).
Proof.
  intros msg w. split; [apply get_req_id_world|].
  unfold get_req_id, parent_msg_id, bind, lift, ret.
  repeat split.
  - intros d -> Hh. simpl. now rewrite Hh.
  - intros d h -> Hh Hid. simpl. rewrite Hh. simpl. now rewrite Hid.
  - intros p -> Hp. simpl. now rewrite Hp.
  - intros k -> Hk. simpl. destruct (negb (k =? "")%string); simpl;
      [now rewrite Hk | reflexivity].
Qed.

Section Runs.

Context `{Strip}.
Variable json_loads : string -> outcome pyval.

(** One turn of the main loop: at most one response, at most two calls, and
    a map that is the old one or the old one with one more registration. *)
Lemma dispatch_frame ke line w :
  exists calls outs m',
    snd (dispatch json_loads ke line w)
      = mkWorld m' (stdout w ++ outs) (stop_event w) (kernel_log w ++ calls)
    /\ (length outs <= 1)%nat
    /\ (length calls <= 2)%nat
    /\ (m' = msg_map w \/ exists k v, m' = <[k := v]> (msg_map w)).
Proof.
  assert (Hsame : exists calls outs m',
    w = mkWorld m' (stdout w ++ outs) (stop_event w) (kernel_log w ++ calls)
    /\ (length outs <= 1)%nat
    /\ (length calls <= 2)%nat
    /\ (m' = msg_map w \/ exists k v, m' = <[k := v]> (msg_map w))).
  { exists [], [], (msg_map w). rewrite !app_nil_r. destruct w; simpl.
    repeat split; auto. }
  assert (Hstep : forall calls outs m',
    (length outs <= 1)%nat -> (length calls <= 2)%nat ->
    (m' = msg_map w \/ exists k v, m' = <[k := v]> (msg_map w)) ->
    exists calls0 outs0 m0,
      mkWorld m' (stdout w ++ outs) (stop_event w) (kernel_log w ++ calls)
      = mkWorld m0 (stdout w ++ outs0) (stop_event w) (kernel_log w ++ calls0)
      /\ (length outs0 <= 1)%nat
      /\ (length calls0 <= 2)%nat
      /\ (m0 = msg_map w \/ exists k v, m0 = <[k := v]> (msg_map w))).
  { intros calls outs m' Ho Hc Hm. now exists calls, outs, m'. }
  assert (Hquiet : forall calls m',
    (length calls <= 2)%nat ->
    (m' = msg_map w \/ exists k v, m' = <[k := v]> (msg_map w)) ->
    exists calls0 outs0 m0,
      mkWorld m' (stdout w) (stop_event w) (kernel_log w ++ calls)
      = mkWorld m0 (stdout w ++ outs0) (stop_event w) (kernel_log w ++ calls0)
      /\ (length outs0 <= 1)%nat
      /\ (length calls0 <= 2)%nat
      /\ (m0 = msg_map w \/ exists k v, m0 = <[k := v]> (msg_map w))).
  { intros calls m' Hc Hm. exists calls, [], m'. rewrite app_nil_r.
    simpl. auto. }
  destruct (String.eqb_spec (strip line) "") as [Hblank|Hline].
  { rewrite (dispatch_ignored json_loads ke line w (blank_line _ _ Hblank)).
    exact Hsame. }
  destruct (json_loads (strip line)) as [req|e] eqn:Hreq.
  2:{ assert (Hraise : snd (dispatch json_loads ke line w) = w).
      { unfold dispatch. destruct (String.eqb_spec (strip line) ""); [tauto|].
        unfold bind, try_except, perform, ret. rewrite Hreq.
        now destruct (is_instance JSONDecodeError (Err e)). }
      rewrite Hraise. exact Hsame. }
  rewrite (dispatch_parsed _ _ _ _ _ Hline Hreq). unfold bind, lift.
  destruct (py_get req "id" PNone) as [req_id|e]; [|exact Hsame].
  destruct (py_get req "action" PNone) as [action|e]; [|exact Hsame].
  simpl.
  destruct (eq_str action "execute").
  { destruct (py_get req "code" (PStr "")) as [code|e]; [|exact Hsame].
    unfold call, register_msg, ret.
    destruct (kc_execute ke) as [msg_id|e]; simpl.
    - apply Hquiet; simpl; eauto.
    - apply Hquiet; simpl; eauto. }
  destruct (eq_str action "interrupt").
  { unfold try_except, call, ret.
    destruct (km_interrupt_kernel ke) as [[]|e]; simpl.
    - apply Hquiet; simpl; eauto.
    - rewrite emit_result. unfold printed_or_raised, printed.
      destruct (encodable _); simpl;
        [apply Hstep | apply Hquiet]; simpl; eauto. }
  destruct (eq_str action "restart").
  { unfold try_except, bind, call, ret. simpl.
    destruct (km_restart_kernel ke) as [[]|e]; simpl;
      [destruct (kc_wait_for_ready ke) as [[]|e]; simpl|];
      repeat (rewrite emit_result; unfold printed_or_raised, printed;
              destruct (encodable _); simpl);
      rewrite <- ?app_assoc;
      first [apply Hstep | apply Hquiet]; simpl; eauto. }
  destruct (eq_str action "shutdown"); exact Hsame.
Qed.

Lemma step_frame a w :
  exists outs,
    stdout (step json_loads w a) = (stdout w ++ outs)%list
    /\ (length outs <= 1)%nat
    /\ dom (msg_map w) ⊆ dom (msg_map (step json_loads w a))
    /\ stop_event (step json_loads w a) = stop_event w.
Proof.
  destruct a as [line ke|poll]; simpl.
  - destruct (dispatch_frame ke line w)
      as (calls & outs & m' & -> & Hlen & _ & Hm).
    exists outs. simpl. repeat split; try assumption.
    destruct Hm as [->|(k & v & ->)]; [reflexivity|].
    rewrite dom_insert. set_solver.
  - destruct (stop_event w) eqn:Hstop.
    + rewrite (iopub_iteration_stopped _ _ Hstop). exists []. simpl.
      rewrite app_nil_r. repeat split; auto.
    + destruct (iopub_iteration_frame poll w Hstop)
        as (outs & -> & Hlen).
      exists outs. simpl. repeat split; auto.
Qed.

(** X17. Standard output only grows, by at most one line for each turn of
    either loop, and the turns of the loops never set or clear the stop
    event (the clean-up of [main] does). *)
Theorem output_is_append_only :
  forall (acts : list action) (w : world),
    exists outs,
      stdout (run json_loads acts w) = (stdout w ++ outs)%list
      /\ (length outs <= length acts)%nat
      /\ stop_event (run json_loads acts w) = stop_event w.
Proof.
  unfold run. induction acts as [|a acts IH]; intros w; simpl.
  - exists []. rewrite app_nil_r. auto.
  - destruct (step_frame a w) as (outs1 & Hout1 & Hlen1 & _ & Hstop1).
    destruct (IH (step json_loads w a)) as (outs2 & Hout2 & Hlen2 & Hstop2).
    exists (outs1 ++ outs2)%list. rewrite Hout2, Hout1, Hstop2, Hstop1.
    rewrite length_app, app_assoc. repeat split; auto. lia.
Qed.

(** X18. Nothing is ever removed from the message map: a kernel message id
    that is registered stays registered through every later turn of either
    loop (its value changes only if [kc.execute] returns the id again). *)
Theorem registrations_are_never_removed :
  forall (acts : list action) (w : world) (k : string),
    dom (msg_map w) ⊆ dom (msg_map (run json_loads acts w))
    /\ (is_Some (msg_map w !! k) ->
        is_Some (msg_map (run json_loads acts w) !! k))
    /\ (never_reissued k acts ->
        msg_map (run json_loads acts w) !! k = msg_map w !! k).
Proof.
  intros acts w k.
  assert (Hdom : forall acts w,
            dom (msg_map w) ⊆ dom (msg_map (run json_loads acts w))).
  { unfold run. clear. intros acts.
    induction acts as [|a acts IH]; intros w; simpl; [reflexivity|].
    destruct (step_frame a w) as (outs & _ & _ & Hsub & _).
    etransitivity; [exact Hsub | apply IH]. }
  split; [apply Hdom|]. split.
  - intros Hk. apply elem_of_dom. apply (Hdom acts w). now apply elem_of_dom.
  - apply run_keeps_entry.
Qed.

End Runs.

(** ** Start-up, the other ways *)

Section StartUp.

Context `{Strip}.

Lemma py_get_raises obj key default e :
  py_get obj key default = Raise e -> e = attribute_error "get".
Proof. destruct obj; simpl; congruence. Qed.

Lemma encodable_dict_lookup d k v :
  encodable (PDict d) = true -> dict_lookup d k = Some v -> encodable v = true.
Proof.
  induction d as [|[k' v'] d IH]; simpl; [discriminate|].
  intros Hd Hk. apply andb_true_iff in Hd as [Hkv Hd].
  apply andb_true_iff in Hkv as [_ Hv'].
  destruct (String.eqb k' k); [congruence | now apply IH].
Qed.

Lemma encodable_py_get obj key default v :
  encodable obj = true -> encodable default = true ->
  py_get obj key default = Ok v -> encodable v = true.
Proof.
  destruct obj; simpl; try discriminate.
  intros Hobj Hdefault [= <-].
  destruct (dict_lookup items key) as [v'|] eqn:Hk; [|exact Hdefault].
  exact (encodable_dict_lookup _ _ _ Hobj Hk).
Qed.

(** X19. When the kernel starts, exactly one line is printed,
    [{"type": "ready", "language": ...}], after the seven calls of the
    start-up, the kernel being the one named by [JUPYTER_KERNEL_NAME] or
    [python3].  The language is the name in the [language_info] of the
    reply's content; it is ["python"] when [kc.get_shell_msg(timeout=10)]
    raises, when the reply is not a dict and when the reply has no
    content.  [main] then runs its loop in that state. *)
Theorem startup_announces_ready :
  forall (json_loads : string -> outcome pyval) (se : startup_env)
         (input : list stdin_item) (te : teardown_env) (w : world),
    kernel_starts se ->
    exists language,
      startup se w
        = (Ok tt, printed (called w (startup_calls se)) [ready_response language])
      /\ main json_loads se input te w
         = main_loop json_loads input te
             (printed (called w (startup_calls se)) [ready_response language])
      /\ (forall e, kc_get_shell_msg se = Fails e -> language = PStr "python")
      /\ (forall reply, kc_get_shell_msg se = Done reply ->
          (forall d, reply <> PDict d) -> language = PStr "python")
      /\ (forall reply, kc_get_shell_msg se = Done (PDict reply) ->
          dict_lookup reply "content" = None -> language = PStr "python")
      /\ (forall reply content info,
          kc_get_shell_msg se = Done (PDict reply) ->
          dict_lookup reply "content" = Some (PDict content) ->
          dict_lookup content "language_info" = Some (PDict info) ->
          language = item_or info "name" (PStr "python")).
Proof.
  intros json_loads se input te w (H1 & H2 & H3 & H4 & H5 & H6 & H7 & H8).
  assert (Hstart : exists language,
    startup se w
      = (Ok tt, printed (called w (startup_calls se)) [ready_response language])
    /\ language =
       match kc_get_shell_msg se with
       | Fails _ => PStr "python"
       | Done reply =>
           match result_bind (py_get reply "content" (PDict []))
                   (fun content =>
                      result_bind (py_get content "language_info" (PDict []))
                        (fun info => py_get info "name" (PStr "python"))) with
           | Ok name => name
           | Raise _ => PStr "python"
           end
       end).
  { assert (Hready : forall language,
      encodable language = true ->
      emit (PDict [("type", PStr "ready"); ("language", language)])
           (called w (startup_calls se))
        = (Ok tt,
           printed (called w (startup_calls se)) [ready_response language])).
    { intros language Hl. rewrite emit_result. unfold printed_or_raised.
      simpl encodable. now rewrite Hl. }
    pose proof (shell_reply_text se) as Htext.
    unfold startup, bind, try_except, perform, call, lift, ret.
    rewrite H1, H2, H3, H4, H5, H6, H7, H8. simpl.
    unfold called, startup_calls, kernel_name_of in Hready. simpl in Hready.
    rewrite <- !app_assoc. simpl.
    destruct (kc_get_shell_msg se) as [reply|e]; simpl;
      [|eexists; split; [now apply Hready | reflexivity]].
    destruct (py_get reply "content" (PDict [])) as [content|e] eqn:Hc;
      simpl.
    2:{ apply py_get_raises in Hc as ->. simpl.
        eexists; split; [now apply Hready | reflexivity]. }
    pose proof (encodable_py_get reply "content" (PDict []) content Htext
                  eq_refl Hc) as Hcontent.
    destruct (py_get content "language_info" (PDict [])) as [info|e]
      eqn:Hi; simpl.
    2:{ apply py_get_raises in Hi as ->. simpl.
        eexists; split; [now apply Hready | reflexivity]. }
    pose proof (encodable_py_get content "language_info" (PDict []) info
                  Hcontent eq_refl Hi) as Hinfo.
    destruct (py_get info "name" (PStr "python")) as [name|e] eqn:Hn;
      simpl.
    2:{ apply py_get_raises in Hn as ->. simpl.
        eexists; split; [now apply Hready | reflexivity]. }
    pose proof (encodable_py_get info "name" (PStr "python") name Hinfo
                  eq_refl Hn) as Hname.
    eexists; split; [now apply Hready | reflexivity]. }
  destruct Hstart as (language & Hstartup & Hlanguage).
  exists language. split; [exact Hstartup|]. split.
  { unfold main, bind. now rewrite Hstartup. }
  repeat split.
  - intros e He. now rewrite He in Hlanguage.
  - intros reply Hreply Hnot. rewrite Hreply in Hlanguage.
    destruct reply; try exact Hlanguage. now destruct (Hnot items).
  - intros reply Hreply Hcontent. rewrite Hreply in Hlanguage.
    simpl in Hlanguage. now rewrite Hcontent in Hlanguage.
  - intros reply content info Hreply Hcontent Hinfo.
    rewrite Hreply in Hlanguage. simpl in Hlanguage.
    rewrite Hcontent in Hlanguage. simpl in Hlanguage.
    now rewrite Hinfo in Hlanguage.
Qed.

(** X20. The start-up steps without an [except] clause of their own fail
    without a word: when an import raises something else than [ImportError],
    when [KernelManager(...)], [km.client()], [kc.start_channels()] or
    [kc.kernel_info()] raises, or [kc.wait_for_ready] raises something else
    than [RuntimeError], nothing is printed (no error response, no [ready]),
    [km.shutdown_kernel] is not called, and the exception ends the process
    with status 1. *)
Theorem unguarded_startup_failure_prints_nothing :
  forall (json_loads : string -> outcome pyval) (se : startup_env) (e : error)
         (input : list stdin_item) (te : teardown_env) (w : world),
    startup_crash se e ->
    exists calls,
      main json_loads se input te w = (Raise (Err e), called w calls)
      /\ ~ In (KmShutdownKernel true) calls
      /\ stdout (snd (main json_loads se input te w)) = stdout w
      /\ exit_status (fst (main json_loads se input te w)) = 1.
Proof.
  intros json_loads se e input te w Hcrash.
  assert (Hmain : exists calls,
            main json_loads se input te w = (Raise (Err e), called w calls)
            /\ ~ In (KmShutdownKernel true) calls).
  { unfold main, bind at 1, startup.
    unfold bind, try_except, perform, call, called.
    destruct Hcrash as [H1 Hc | H1 H2 Hc | H1 H2 H3 | H1 H2 H3 H4 H5
                       | H1 H2 H3 H4 H5 H6 | H1 H2 H3 H4 H5 H6 H7 Hc
                       | H1 H2 H3 H4 H5 H6 H7 H8];
      repeat match goal with
             | H : _ se = _ |- _ => rewrite H; clear H
             | H : is_instance _ _ = false |- _ => rewrite H; clear H
             end; simpl; rewrite <- ?app_assoc; simpl.
    - exists []. rewrite app_nil_r. destruct w. split; [reflexivity | tauto].
    - exists []. rewrite app_nil_r. destruct w. split; [reflexivity | tauto].
    - eexists. split; [reflexivity|]. simpl. intuition discriminate.
    - eexists. split; [reflexivity|]. simpl. intuition discriminate.
    - eexists. split; [reflexivity|]. simpl. intuition discriminate.
    - eexists. split; [reflexivity|]. simpl. intuition discriminate.
    - eexists. split; [reflexivity|]. simpl. intuition discriminate. }
  destruct Hmain as (calls & Hmain & Hcalls).
  exists calls. rewrite Hmain. simpl. auto.
Qed.

End StartUp.

(** ** Flattening, the other cases *)

Lemma str_join_joinable l :
  match str_join l with
  | Ok _ => forallb is_str l = true
  | Raise e =>
      forallb is_str l = false
      /\ e = type_error "sequence item: expected str instance"
  end.
Proof.
  induction l as [|v l IH]; simpl; [reflexivity|].
  destruct v; simpl; auto.
  destruct (str_join l); simpl; exact IH.
Qed.

Lemma flatten_value_joinable v :
  match flatten_value v with
  | Ok _ => joinable v = true
  | Raise e =>
      joinable v = false
      /\ e = type_error "sequence item: expected str instance"
  end.
Proof.
  destruct v; simpl; try reflexivity.
  pose proof (str_join_joinable l) as Hl. now destruct (str_join l).
Qed.

Lemma flatten_items_joinable items :
  forall acc,
    match flatten_items items acc with
    | Ok _ => forallb (fun kv => joinable (snd kv)) items = true
    | Raise e =>
        forallb (fun kv => joinable (snd kv)) items = false
        /\ e = type_error "sequence item: expected str instance"
    end.
Proof.
  induction items as [|[k v] items IH]; intros acc; simpl; [reflexivity|].
  pose proof (flatten_value_joinable v) as Hv.
  destruct (flatten_value v) as [v'|e].
  - rewrite Hv. simpl. apply IH.
  - destruct Hv as [-> ->]. auto.
Qed.

(** X21. The data of a message can be flattened exactly when no value in
    it is a list with an item that is not a string; otherwise ["".join]
    raises [TypeError] (a JSON array under [application/json] does it). *)
Theorem flatten_data_fails_on_non_text_lists :
  forall d : pydict,
    match flatten_data (PDict d) with
    | Ok _ => forallb (fun kv => joinable (snd kv)) d = true
    | Raise e =>
        forallb (fun kv => joinable (snd kv)) d = false
        /\ e = type_error "sequence item: expected str instance"
    end.
Proof.
  intros d. unfold flatten_data. simpl.
  pose proof (flatten_items_joinable d []) as Hd.
  now destruct (flatten_items d []).
Qed.

Lemma flatten_items_keeps_order items :
  forall acc flat,
    flatten_items items acc = Ok flat ->
    List.NoDup (map fst (acc ++ items)) ->
    exists flat',
      flat = (acc ++ flat')%list
      /\ Forall2 (fun kv kv' => fst kv' = fst kv
                                /\ flatten_value (snd kv) = Ok (snd kv'))
           items flat'.
Proof.
  induction items as [|[k v] items IH]; intros acc flat; simpl.
  - intros [= <-] _. exists []. rewrite app_nil_r. auto.
  - destruct (flatten_value v) as [v'|e] eqn:Hv; [|discriminate].
    intros Hflat Hnodup.
    assert (Hk : ~ In k (map fst acc)).
    { rewrite map_app in Hnodup. simpl in Hnodup.
      apply List.NoDup_remove_2 in Hnodup. rewrite in_app_iff in Hnodup. tauto. }
    rewrite (dict_set_fresh _ _ _ Hk) in Hflat.
    destruct (IH _ _ Hflat) as (flat' & -> & Hrel).
    { rewrite <- app_assoc. simpl.
      rewrite !map_app in *. simpl in *. exact Hnodup. }
    exists ((k, v') :: flat'). rewrite <- app_assoc. simpl.
    split; [reflexivity|]. constructor; [simpl; auto | exact Hrel].
Qed.

(** X22. Flattening keeps the keys of the data and their order, and
    changes the values that are lists only: every other value (a string, a
    number, a nested dict) comes out as it went in. *)
Theorem flatten_data_keeps_keys_and_order :
  forall d flat : pydict,
    dict_wf d ->
    flatten_data (PDict d) = Ok (PDict flat) ->
    map fst flat = map fst d
    /\ Forall2 (fun kv kv' => fst kv' = fst kv
                              /\ flatten_value (snd kv) = Ok (snd kv')
                              /\ (is_list (snd kv) = false -> snd kv' = snd kv))
         d flat.
Proof.
  intros d flat Hwf. unfold flatten_data. simpl.
  destruct (flatten_items d []) as [flat0|e] eqn:Hflat; [|discriminate].
  intros [= <-].
  destruct (flatten_items_keeps_order d [] flat0 Hflat Hwf)
    as (flat' & -> & Hrel).
  simpl. clear Hflat Hwf.
  induction Hrel as [|[k v] [k' v'] d flat' (Hk & Hv) _ [IHk IHrel]];
    [split; constructor|].
  simpl in *. subst k'. split; [now rewrite IHk|].
  constructor; [|exact IHrel]. simpl. repeat split; try assumption.
  intros Hlist. rewrite (flatten_value_flat _ Hlist) in Hv. congruence.
Qed.

(** ** The output writer, the other ways *)

Section OutputWriterFurther.

Variable json_dumps : pyval -> string.

(** X23. [_emit_lock] is exclusive: whatever the schedule, a thread is in
    the middle of [print] exactly when it holds the lock, so the two threads
    are never printing at the same time. *)
Theorem emit_lock_is_exclusive :
  forall (sched : list event) (t : thread),
    is_printing (pc (run_writers json_dumps sched writers_start) t)
      = match emit_lock (run_writers json_dumps sched writers_start) with
        | Some holder => thread_eqb t holder
        | None => false
        end
    /\ is_printing (pc (run_writers json_dumps sched writers_start) MainThread)
       && is_printing
            (pc (run_writers json_dumps sched writers_start) ListenerThread)
       = false.
Proof.
  intros sched t.
  pose proof (run_writers_integrity json_dumps sched (fun _ => True)
                (fun _ _ => I))
    as (objs & partial & _ & _ & _ & Hlock).
  set (s := run_writers json_dumps sched writers_start) in *.
  assert (Hall : forall u,
            is_printing (pc s u)
            = match emit_lock s with
              | Some holder => thread_eqb u holder
              | None => false
              end).
  { intros u. destruct (emit_lock s) as [holder|].
    - destruct Hlock as [(obj & rest & Hholder & _) Hothers].
      destruct (thread_eqb u holder) eqn:Heq.
      + apply thread_eqb_eq in Heq as ->. now rewrite Hholder.
      + specialize (Hothers u Heq). now destruct (pc s u).
    - destruct Hlock as [_ Hn]. specialize (Hn u). now destruct (pc s u). }
  split; [apply Hall|]. rewrite !Hall.
  now destruct (emit_lock s) as [[]|].
Qed.

(** X24. Alone, [emit] is an append: a thread that is outside [emit] and
    finds the lock free has, once it has run all the steps of its call, put
    exactly the line of its object at the end of the stream, released the
    lock and left the other thread where it was.  When the line cannot be
    encoded the call ends with the lock released and nothing written. *)
Theorem uncontended_emit_appends_line :
  forall (t : thread) (obj : pyval) (s : writer_state),
    pc s t = Outside ->
    emit_lock s = None ->
    run_writers json_dumps
      (CallEmit t obj
       :: repeat (Advance t) (length (line_of json_dumps obj) + 2)) s
    = set_pc s t Outside None
        (if encodable obj then (stream s ++ line_of json_dumps obj)%list
         else stream s).
Proof.
  intros t obj s Ht Hlock.
  change (CallEmit t obj
          :: repeat (Advance t) (length (line_of json_dumps obj) + 2))
    with ([CallEmit t obj]
          ++ repeat (Advance t) (length (line_of json_dumps obj) + 2))%list.
  rewrite run_writers_app.
  assert (Hcall : run_writers json_dumps [CallEmit t obj] s
            = set_pc s t (Acquiring obj) (emit_lock s) (stream s)).
  { unfold run_writers. simpl. now rewrite Ht. }
  rewrite Hcall, emit_runs_alone.
  - now rewrite set_pc_again, stream_set_pc.
  - apply pc_set_pc_same.
  - now rewrite emit_lock_set_pc.
Qed.

(** X12. Under contention [emit] waits its turn.  Thread [t] is at
    [with _emit_lock] while the other thread holds the lock with [rest]
    still to write: the steps [t] runs meanwhile change nothing, and once
    the holder has written [rest] and released the lock, the line of [t]
    follows it, whole. *)
Theorem contended_emit_waits_then_appends :
  forall (t u : thread) (obj held : pyval) (rest : list ascii) (n : nat)
         (s : writer_state),
    thread_eqb t u = false ->
    pc s t = Acquiring obj ->
    pc s u = Printing held rest ->
    emit_lock s = Some u ->
    run_writers json_dumps (repeat (Advance t) n) s = s
    /\ run_writers json_dumps
         (repeat (Advance u) (length rest + 1)
          ++ repeat (Advance t) (length (line_of json_dumps obj) + 2)) s
       = set_pc (set_pc s u Outside None (stream s ++ rest)) t Outside None
           (if encodable obj
            then (stream s ++ rest ++ line_of json_dumps obj)%list
            else (stream s ++ rest)%list).
Proof.
  intros t u obj held rest n s Htu Ht Hu Hlock. split.
  - unfold run_writers.
    induction n as [|n IH]; simpl; [reflexivity|].
    now rewrite Ht, Hlock.
  - rewrite run_writers_app.
    rewrite (repeat_app (Advance u) (length rest) 1), run_writers_app.
    rewrite (advance_prints_rest json_dumps u held rest s Hu).
    assert (Hrelease :
      run_writers json_dumps (repeat (Advance u) 1)
        (set_pc s u (Printing held []) (emit_lock s) (stream s ++ rest))
      = set_pc s u Outside None (stream s ++ rest)).
    { unfold run_writers. simpl. rewrite pc_set_pc_same.
      now rewrite set_pc_again, stream_set_pc. }
    rewrite Hrelease, emit_runs_alone.
    + rewrite stream_set_pc. now rewrite <- app_assoc.
    + now rewrite (pc_set_pc_other _ _ _ _ _ _ Htu).
    + apply emit_lock_set_pc.
Qed.

End OutputWriterFurther.

(** * Worked examples *)

(** An execute request, then the stream message of its execution. *)
Example stream_output_carries_request_id :
  stdout (run sample_json_loads
            [MainHandles execute_line sample_kernel;
             ListenerPolls (Done stream_msg)]
            initial_world)
  = [PDict [("id", PStr "r1"); ("type", PStr "stream");
            ("name", PStr "stdout"); ("text", PStr "2")]].
Proof. reflexivity. Qed.

(** A session: a blank line, noise, an execute request, a restart, then
    end of input; the kernel answers every call. *)
Example session_prints_restarted_only :
  main_loop sample_json_loads
    [Line end_of_line sample_kernel; Line "noise" sample_kernel;
     Line execute_line sample_kernel; Line restart_line later_kernel]
    sample_teardown initial_world
  = (Ok tt,
     mkWorld (<["m1" := PStr "r1"]> ∅)
       [restarted_response (PStr "r2")]
       true
       [KcExecute (PStr "1+1"); KmRestartKernel true; KcWaitForReady 30;
        KcStopChannels; KmShutdownKernel true]).
Proof. reflexivity. Qed.

(** The listener is held back until the main thread has written its line. *)
Example contended_lines_stay_whole :
  stream (run_writers sample_json_dumps contended_schedule writers_start)
  = list_ascii_of_string ("{}" +:+ end_of_line +:+ "[]" +:+ end_of_line)
  /\ emit_lock (run_writers sample_json_dumps contended_schedule writers_start)
     = None.
Proof. split; reflexivity. Qed.

Lemma flatten_joins_fragments_witness :
  dict_wf [("text/plain", PList (map PStr ["a"; "b"; "c"]))]
  /\ dict_lookup [("text/plain", PList (map PStr ["a"; "b"; "c"]))] "text/plain"
     = Some (PList (map PStr ["a"; "b"; "c"]))
  /\ flatten_data (PDict [("text/plain", PList (map PStr ["a"; "b"; "c"]))])
     = Ok (PDict [("text/plain", PStr "abc")])
  /\ dict_lookup [("text/plain", PStr "abc")] "text/plain" = Some (PStr "abc").
Proof.
  assert (Hwf : dict_wf [("text/plain", PList (map PStr ["a"; "b"; "c"]))]).
  { unfold dict_wf. simpl. apply List.NoDup_cons; [simpl; tauto | apply List.NoDup_nil]. }
  split; [exact Hwf|]. split; [reflexivity|]. split; [reflexivity|].
  destruct (flatten_joins_fragments_and_is_idempotent
              ["a"; "b"; "c"] "" PNone PNone) as (_ & _ & _ & _ & _ & Hkey).
  exact (Hkey _ [("text/plain", PStr "abc")] "text/plain" Hwf eq_refl eq_refl).
Defined.

Lemma status_relayed_witness :
  stop_event initial_world = false
  /\ stdout (snd (iopub_iteration (Done busy_msg) initial_world))
     = [status_response PNone (PStr "busy")].
Proof.
  split; [reflexivity|].
  destruct (status_relayed_when_printable busy_msg initial_world eq_refl)
    as [Hstatus _].
  destruct (Hstatus (PDict [("execution_state", PStr "busy")]) (PStr "busy") PNone
              eq_refl eq_refl eq_refl eq_refl eq_refl)
    as [[_ Hout]|(Hbusy & _)].
  - exact Hout.
  - now destruct Hbusy.
Defined.

Lemma listener_ended_witness :
  stop_event initial_world = false
  /\ iopub_listener [Done json_display_msg; Done stream_msg] initial_world
     = (Raise (type_error "sequence item: expected str instance"),
        polled initial_world).
Proof.
  split; [reflexivity|].
  exact (proj1 (listener_ended_by_json_list_payload
                  [Done stream_msg] initial_world eq_refl)).
Defined.

Lemma non_object_line_witness :
  str_strip list_line <> ""
  /\ sample_json_loads (str_strip list_line) = Done (PList [])
  /\ (forall d, PList [] <> PDict d)
  /\ for_lines sample_json_loads
       [Line list_line sample_kernel; Line execute_line sample_kernel]
       initial_world
     = (Raise (attribute_error "get"), initial_world).
Proof.
  assert (Hline : str_strip list_line <> "") by (vm_compute; discriminate).
  assert (Hlist : forall d, PList [] <> PDict d) by discriminate.
  split; [exact Hline|]. split; [reflexivity|]. split; [exact Hlist|].
  exact (proj1 (non_object_line_ends_main_loop sample_json_loads sample_kernel
                  list_line (PList []) [Line execute_line sample_kernel]
                  sample_teardown initial_world Hline eq_refl Hlist)).
Defined.

Lemma restart_response_witness :
  str_strip restart_line <> ""
  /\ sample_json_loads (str_strip restart_line) = Done restart_request
  /\ dispatch sample_json_loads sample_kernel restart_line initial_world
     = (Ok Continue,
        printed (called initial_world [KmRestartKernel true; KcWaitForReady 30])
          [restarted_response (PStr "r2")]).
Proof.
  assert (Hline : str_strip restart_line <> "") by (vm_compute; discriminate).
  split; [exact Hline|]. split; [reflexivity|].
  exact (restart_gets_exactly_one_response sample_json_loads sample_kernel
           restart_line restart_request (PStr "r2") initial_world
           Hline eq_refl eq_refl eq_refl eq_refl).
Defined.

(** The restart request [{"id":"\ud800","action":"restart"}]: the kernel is
    restarted, nothing is printed, and the execute request after it is not
    read. *)
Lemma restart_unencodable_witness :
  str_strip surrogate_line <> ""
  /\ surrogate_json_loads (str_strip surrogate_line) = Done surrogate_request
  /\ py_get surrogate_request "id" PNone = Ok (PStr lone_surrogate)
  /\ encodable (PStr lone_surrogate) = false
  /\ for_lines surrogate_json_loads
       [Line surrogate_line sample_kernel; Line execute_line sample_kernel]
       initial_world
     = (Raise unicode_encode_error,
        called initial_world [KmRestartKernel true; KcWaitForReady 30])
  /\ stdout (snd (main_loop surrogate_json_loads
                    [Line surrogate_line sample_kernel;
                     Line execute_line sample_kernel]
                    sample_teardown initial_world)) = []
  /\ exit_status (fst (main_loop surrogate_json_loads
                         [Line surrogate_line sample_kernel;
                          Line execute_line sample_kernel]
                         sample_teardown initial_world)) = 1.
Proof.
  assert (Hline : str_strip surrogate_line <> "") by (vm_compute; discriminate).
  split; [exact Hline|]. do 3 (split; [reflexivity|]).
  exact (proj2 (restart_with_unencodable_id_gets_no_response
                  surrogate_json_loads sample_kernel surrogate_line
                  surrogate_request (PStr lone_surrogate)
                  [Line execute_line sample_kernel] sample_teardown
                  initial_world Hline eq_refl eq_refl eq_refl eq_refl)).
Defined.

(** The request id ["\ud800"] is registered for the message [m1]; the
    kernel then reports [busy] for it: the listener ends. *)
Lemma status_unencodable_witness :
  stop_event (registered initial_world "m1" (PStr lone_surrogate)) = false
  /\ fst (get_req_id busy_msg
            (registered initial_world "m1" (PStr lone_surrogate)))
     = Ok (PStr lone_surrogate)
  /\ encodable (PStr lone_surrogate) = false
  /\ iopub_listener [Done busy_msg; Done stream_msg]
       (registered initial_world "m1" (PStr lone_surrogate))
     = (Raise unicode_encode_error,
        polled (registered initial_world "m1" (PStr lone_surrogate))).
Proof.
  do 3 (split; [reflexivity|]).
  exact (proj1 (status_with_unencodable_id_ends_listener busy_msg
                  (PDict [("execution_state", PStr "busy")]) (PStr "busy")
                  (PStr lone_surrogate) [Done stream_msg]
                  (registered initial_world "m1" (PStr lone_surrogate))
                  eq_refl eq_refl eq_refl eq_refl eq_refl eq_refl eq_refl)).
Defined.


Lemma execute_events_resolve_witness :
  str_strip execute_line <> ""
  /\ sample_json_loads (str_strip execute_line) = Done execute_request
  /\ kc_execute sample_kernel = Done "m1"
  /\ never_reissued "m1" sample_turns
  /\ parent_msg_id stream_msg = Ok (PStr "m1")
  /\ fst (get_req_id stream_msg
            (run sample_json_loads sample_turns
               (snd (dispatch sample_json_loads sample_kernel execute_line
                       initial_world))))
     = Ok (PStr "r1")
  /\ iopub_iteration (Done stream_msg)
       (run sample_json_loads sample_turns
          (snd (dispatch sample_json_loads sample_kernel execute_line
                  initial_world)))
     = relayed
         (run sample_json_loads sample_turns
            (snd (dispatch sample_json_loads sample_kernel execute_line
                    initial_world)))
         (PDict [("id", PStr "r1"); ("type", PStr "stream");
                 ("name", PStr "stdout"); ("text", PStr "2")]).
Proof.
  assert (Hline : str_strip execute_line <> "") by (vm_compute; discriminate).
  assert (Hid : "m1" <> "") by discriminate.
  split; [exact Hline|]. do 4 (split; [reflexivity|]).
  destruct (execute_events_resolve_to_request_id sample_json_loads
              sample_kernel execute_line execute_request (PStr "r1") "m1"
              initial_world sample_turns stream_msg
              Hline eq_refl eq_refl eq_refl eq_refl Hid eq_refl eq_refl)
    as (_ & Hresolve & _ & Hrelays).
  split; [exact Hresolve|].
  exact (proj1 (Hrelays eq_refl _ eq_refl) eq_refl).
Defined.

Lemma execute_without_id_witness :
  str_strip anonymous_line <> ""
  /\ sample_json_loads (str_strip anonymous_line) = Done (PDict anonymous_request)
  /\ dict_lookup anonymous_request "id" = None
  /\ never_reissued "m1" sample_turns
  /\ msg_map (snd (dispatch sample_json_loads sample_kernel anonymous_line
                     initial_world))
     = <["m1" := PNone]> (msg_map initial_world)
  /\ fst (get_req_id stream_msg
            (run sample_json_loads sample_turns
               (snd (dispatch sample_json_loads sample_kernel anonymous_line
                       initial_world))))
     = Ok PNone
  /\ iopub_iteration (Done stream_msg)
       (run sample_json_loads sample_turns
          (snd (dispatch sample_json_loads sample_kernel anonymous_line
                  initial_world)))
     = relayed
         (run sample_json_loads sample_turns
            (snd (dispatch sample_json_loads sample_kernel anonymous_line
                    initial_world)))
         (PDict [("id", PNone); ("type", PStr "stream");
                 ("name", PStr "stdout"); ("text", PStr "2")]).
Proof.
  assert (Hline : str_strip anonymous_line <> "") by (vm_compute; discriminate).
  assert (Hid : "m1" <> "") by discriminate.
  split; [exact Hline|]. do 3 (split; [reflexivity|]).
  destruct (execute_without_id_registers_null sample_json_loads sample_kernel
              anonymous_line anonymous_request (PStr "2+2") "m1" initial_world
              sample_turns stream_msg
              Hline eq_refl eq_refl eq_refl eq_refl eq_refl Hid eq_refl eq_refl)
    as (_ & _ & Hmap & Hresolve & _ & Hrelays).
  split; [exact Hmap|]. split; [exact Hresolve|].
  exact (proj1 (Hrelays eq_refl _ eq_refl) eq_refl).
Defined.

Lemma response_id_witness :
  stdout (step sample_json_loads initial_world
            (MainHandles restart_line sample_kernel))
    = (stdout initial_world ++ [restarted_response (PStr "r2")])%list
  /\ In (restarted_response (PStr "r2")) [restarted_response (PStr "r2")]
  /\ exists req req_id evalue,
       sample_json_loads (str_strip restart_line) = Done req
       /\ py_get req "id" PNone = Ok req_id
       /\ (restarted_response (PStr "r2") = restarted_response req_id
           \/ restarted_response (PStr "r2")
              = request_error req_id "InterruptError" evalue
           \/ restarted_response (PStr "r2")
              = request_error req_id "RestartError" evalue).
Proof.
  assert (Hout : stdout (step sample_json_loads initial_world
                           (MainHandles restart_line sample_kernel))
                 = (stdout initial_world ++ [restarted_response (PStr "r2")])%list)
    by reflexivity.
  assert (Hin : In (restarted_response (PStr "r2"))
                  [restarted_response (PStr "r2")]) by (now left).
  split; [exact Hout|]. split; [exact Hin|].
  exact (response_id_from_lookup_or_request sample_json_loads
           (MainHandles restart_line sample_kernel) initial_world
           [restarted_response (PStr "r2")] (restarted_response (PStr "r2"))
           Hout Hin).
Defined.

(** C2, as stated, fails.  The restart request [{"id":"r2","action":"restart"}]
    is handled before anything has been registered: the response printed
    carries the id ["r2"], which is read from the request; the map is empty,
    so no look-up returns it. *)
Lemma restart_response_id_not_looked_up :
  stdout (step sample_json_loads initial_world
            (MainHandles restart_line sample_kernel))
    = [restarted_response (PStr "r2")]
  /\ carries_id (PStr "r2") (restarted_response (PStr "r2"))
  /\ msg_map initial_world = ∅
  /\ (forall msg, fst (get_req_id msg initial_world) <> Ok (PStr "r2"))
  /\ ~ every_response_id_looked_up.
Proof.
  assert (Hout : stdout (step sample_json_loads initial_world
                           (MainHandles restart_line sample_kernel))
                 = [restarted_response (PStr "r2")]) by reflexivity.
  assert (Hcarries : carries_id (PStr "r2") (restarted_response (PStr "r2"))).
  { eexists. reflexivity. }
  assert (Hnone : forall msg, fst (get_req_id msg initial_world) <> Ok (PStr "r2")).
  { intros msg Hmsg.
    destruct (get_req_id_from_map msg (PStr "r2") initial_world Hmsg)
      as (key & _ & Hkey); [discriminate|].
    simpl in Hkey. now rewrite lookup_empty in Hkey. }
  split; [exact Hout|]. split; [exact Hcarries|]. split; [reflexivity|].
  split; [exact Hnone|].
  intros Hclaim.
  destruct (Hclaim sample_json_loads (MainHandles restart_line sample_kernel)
              initial_world [restarted_response (PStr "r2")]
              (restarted_response (PStr "r2")) (PStr "r2")
              Hout (or_introl eq_refl) Hcarries) as [msg Hmsg]; [discriminate|].
  exact (Hnone msg Hmsg).
Qed.

(** * Worked examples of the further properties *)

Lemma interrupt_failure_witness :
  str_strip interrupt_line <> ""
  /\ more_json_loads (str_strip interrupt_line) = Done interrupt_request
  /\ dispatch more_json_loads stubborn_kernel interrupt_line initial_world
     = (Ok Continue,
        printed (called initial_world [KmInterruptKernel])
          [request_error (PStr "r3") "InterruptError" "Cannot interrupt kernel"]).
Proof.
  assert (Hline : str_strip interrupt_line <> "") by (vm_compute; discriminate).
  split; [exact Hline|]. split; [reflexivity|].
  exact (interrupt_reports_failure_only more_json_loads stubborn_kernel
           interrupt_line interrupt_request (PStr "r3") initial_world
           Hline eq_refl eq_refl eq_refl).
Defined.

Lemma shutdown_witness :
  str_strip shutdown_line <> ""
  /\ more_json_loads (str_strip shutdown_line) = Done shutdown_request
  /\ for_lines more_json_loads
       [Line shutdown_line sample_kernel; Line execute_line sample_kernel]
       initial_world
     = (Ok tt, initial_world).
Proof.
  assert (Hline : str_strip shutdown_line <> "") by (vm_compute; discriminate).
  split; [exact Hline|]. split; [reflexivity|].
  exact (proj1 (proj2
    (shutdown_ends_loop more_json_loads sample_kernel shutdown_line
       shutdown_request [Line execute_line sample_kernel] sample_teardown
       initial_world Hline eq_refl eq_refl))).
Defined.

Lemma interrupted_read_witness :
  ends_input KeyboardInterrupt = true
  /\ fst (main_loop sample_json_loads
            [ReadRaises KeyboardInterrupt; Line execute_line sample_kernel]
            sample_teardown initial_world) = Ok tt
  /\ exit_status
       (fst (main_loop sample_json_loads
               [ReadRaises KeyboardInterrupt; Line execute_line sample_kernel]
               sample_teardown initial_world)) = 0.
Proof.
  split; [reflexivity|].
  destruct (interrupted_read_ends_gracefully sample_json_loads
              KeyboardInterrupt [Line execute_line sample_kernel]
              sample_teardown initial_world) as (_ & _ & Hquiet & _).
  exact (Hquiet eq_refl).
Defined.

Lemma execute_failure_witness :
  str_strip execute_line <> ""
  /\ sample_json_loads (str_strip execute_line) = Done execute_request
  /\ for_lines sample_json_loads
       [Line execute_line stubborn_kernel; Line restart_line sample_kernel]
       initial_world
     = (Raise (Err (mkError OtherError "ValueError" "code must be a string")),
        called initial_world [KcExecute (PStr "1+1")]).
Proof.
  assert (Hline : str_strip execute_line <> "") by (vm_compute; discriminate).
  split; [exact Hline|]. split; [reflexivity|].
  exact (proj2 (proj2
    (execute_submits_code_and_prints_nothing sample_json_loads stubborn_kernel
       execute_line
       [("id", PStr "r1"); ("action", PStr "execute"); ("code", PStr "1+1")]
       [Line restart_line sample_kernel] initial_world
       Hline eq_refl eq_refl))).
Defined.

Lemma ignored_lines_witness :
  Forall (ignored_item sample_json_loads)
    [Line end_of_line sample_kernel; Line "noise" sample_kernel]
  /\ for_lines sample_json_loads
       ([Line end_of_line sample_kernel; Line "noise" sample_kernel]
        ++ [Line restart_line sample_kernel])
       initial_world
     = for_lines sample_json_loads [Line restart_line sample_kernel]
         initial_world.
Proof.
  assert (Hskipped : Forall (ignored_item sample_json_loads)
            [Line end_of_line sample_kernel; Line "noise" sample_kernel]).
  { constructor; [apply blank_line; reflexivity|].
    constructor; [|constructor].
    eapply unparseable_line; reflexivity. }
  split; [exact Hskipped|].
  exact (proj1 (ignored_lines_leave_no_trace sample_json_loads _
                  [Line restart_line sample_kernel] initial_world Hskipped)).
Defined.

Lemma listener_turn_witness :
  stop_event initial_world = false
  /\ exists outs,
       snd (iopub_iteration (Done stream_msg) initial_world)
       = printed (polled initial_world) outs
       /\ (length outs <= 1)%nat.
Proof.
  split; [reflexivity|].
  destruct (listener_turn_prints_at_most_one (Done stream_msg) initial_world
              eq_refl) as (outs & Hw & Hlen & _).
  exists outs. split; [exact Hw | exact Hlen].
Defined.

Lemma failed_polls_witness :
  stop_event initial_world = false
  /\ iopub_listener (map Fails [queue_empty; queue_empty]) initial_world
     = (Ok None,
        called initial_world
          [KcGetIopubMsg poll_timeout; KcGetIopubMsg poll_timeout]).
Proof.
  split; [reflexivity|].
  exact (failed_polls_keep_listener_running [queue_empty; queue_empty]
           initial_world eq_refl).
Defined.

Lemma error_relayed_witness :
  py_get error_msg "content" (PDict [])
    = Ok (PDict [("ename", PStr "ZeroDivisionError");
                 ("traceback", PList [PStr "line 1"])])
  /\ fst (get_req_id error_msg initial_world) = Ok PNone
  /\ handle_iopub_msg error_msg initial_world
     = (Ok tt,
        printed initial_world
          [PDict [("id", PNone); ("type", PStr "error");
                  ("ename", PStr "ZeroDivisionError"); ("evalue", PStr "");
                  ("traceback", PList [PStr "line 1"])]]).
Proof.
  split; [reflexivity|]. split; [reflexivity|].
  exact (proj2 (stream_and_error_relayed_with_defaults error_msg _ PNone
                  initial_world eq_refl eq_refl) eq_refl).
Defined.

Lemma result_relayed_witness :
  fst (get_req_id result_msg initial_world) = Ok PNone
  /\ handle_iopub_msg result_msg initial_world
     = (Ok tt,
        printed initial_world
          [PDict [("id", PNone); ("type", PStr "execute_result");
                  ("data", PDict [("text/plain", PStr "42");
                                  ("text/html", PStr "<b>42</b>")]);
                  ("execution_count", PInt 3)]]).
Proof.
  split; [reflexivity|].
  exact (proj1 (results_relayed_with_flat_data result_msg _ PNone
                  initial_world eq_refl eq_refl) eq_refl).
Defined.

Lemma register_then_resolve_witness :
  parent_msg_id stream_msg = Ok (PStr "m1")
  /\ "m1" <> ""
  /\ fst (get_req_id stream_msg
            (snd (register_msg "m1" (PStr "r9")
                    (snd (register_msg "m1" (PStr "r1") initial_world)))))
     = Ok (PStr "r9").
Proof.
  assert (Hne : "m1" <> "") by discriminate.
  split; [reflexivity|]. split; [exact Hne|].
  exact (register_then_resolve "m1" (PStr "r9") "m1" stream_msg
           (snd (register_msg "m1" (PStr "r1") initial_world)) eq_refl Hne).
Defined.

Lemma unresolved_witness :
  parent_msg_id stream_msg = Ok (PStr "m1")
  /\ msg_map initial_world !! "m1" = None
  /\ fst (get_req_id stream_msg initial_world) = Ok PNone.
Proof.
  split; [reflexivity|]. split; [reflexivity|].
  destruct (unresolved_messages_get_none stream_msg initial_world)
    as (_ & _ & _ & _ & Hunknown).
  exact (Hunknown "m1" eq_refl eq_refl).
Defined.

Lemma registrations_witness :
  is_Some (msg_map (registered initial_world "m1" (PStr "r1")) !! "m1")
  /\ is_Some
       (msg_map (run sample_json_loads sample_turns
                   (registered initial_world "m1" (PStr "r1"))) !! "m1").
Proof.
  assert (Hsome : is_Some (msg_map (registered initial_world "m1" (PStr "r1"))
                             !! "m1")).
  { exists (PStr "r1"). reflexivity. }
  split; [exact Hsome|].
  destruct (registrations_are_never_removed sample_json_loads sample_turns
              (registered initial_world "m1" (PStr "r1")) "m1")
    as (_ & Hkeep & _).
  exact (Hkeep Hsome).
Defined.

Lemma startup_ready_witness :
  kernel_starts julia_startup
  /\ startup julia_startup initial_world
     = (Ok tt,
        printed (called initial_world (startup_calls julia_startup))
          [ready_response (PStr "julia")]).
Proof.
  assert (Hstarts : kernel_starts julia_startup).
  { unfold kernel_starts. simpl. repeat split. }
  split; [exact Hstarts|].
  destruct (startup_announces_ready sample_json_loads julia_startup []
              sample_teardown initial_world Hstarts)
    as (language & Hstartup & _ & _ & _ & _ & Hname).
  rewrite Hstartup.
  now rewrite (Hname _ _ _ eq_refl eq_refl eq_refl).
Defined.

Lemma unguarded_startup_witness :
  startup_crash no_channels connection_refused
  /\ stdout (snd (main sample_json_loads no_channels
                    [Line execute_line sample_kernel] sample_teardown
                    initial_world)) = []
  /\ exit_status (fst (main sample_json_loads no_channels
                         [Line execute_line sample_kernel] sample_teardown
                         initial_world)) = 1.
Proof.
  assert (Hcrash : startup_crash no_channels connection_refused).
  { apply start_channels_fails; reflexivity. }
  split; [exact Hcrash|].
  destruct (unguarded_startup_failure_prints_nothing sample_json_loads
              no_channels connection_refused
              [Line execute_line sample_kernel] sample_teardown initial_world
              Hcrash) as (calls & _ & _ & Hout & Hexit).
  split; [exact Hout | exact Hexit].
Defined.

Lemma flatten_keeps_keys_witness :
  dict_wf [("text/plain", PList [PStr "4"; PStr "2"]);
           ("text/html", PStr "<b>42</b>")]
  /\ flatten_data (PDict [("text/plain", PList [PStr "4"; PStr "2"]);
                          ("text/html", PStr "<b>42</b>")])
     = Ok (PDict [("text/plain", PStr "42"); ("text/html", PStr "<b>42</b>")])
  /\ map fst [("text/plain", PStr "42"); ("text/html", PStr "<b>42</b>")]
     = map fst [("text/plain", PList [PStr "4"; PStr "2"]);
                ("text/html", PStr "<b>42</b>")].
Proof.
  assert (Hwf : dict_wf [("text/plain", PList [PStr "4"; PStr "2"]);
                         ("text/html", PStr "<b>42</b>")]).
  { unfold dict_wf. simpl. repeat apply List.NoDup_cons; simpl;
      try apply List.NoDup_nil; intuition discriminate. }
  split; [exact Hwf|]. split; [reflexivity|].
  exact (proj1 (flatten_data_keeps_keys_and_order _ _ Hwf eq_refl)).
Defined.

Lemma uncontended_emit_witness :
  pc writers_start ListenerThread = Outside
  /\ emit_lock writers_start = None
  /\ stream (run_writers sample_json_dumps
               (CallEmit ListenerThread (PDict [])
                :: repeat (Advance ListenerThread)
                     (length (line_of sample_json_dumps (PDict [])) + 2))
               writers_start)
     = line_of sample_json_dumps (PDict []).
Proof.
  split; [reflexivity|]. split; [reflexivity|].
  now rewrite (uncontended_emit_appends_line sample_json_dumps ListenerThread
                 (PDict []) writers_start eq_refl eq_refl).
Defined.

Lemma contended_emit_witness :
  thread_eqb ListenerThread MainThread = false
  /\ pc contended_state ListenerThread = Acquiring (PList [])
  /\ pc contended_state MainThread
     = Printing (PDict []) [ascii_of_nat 125; newline]
  /\ emit_lock contended_state = Some MainThread
  /\ run_writers sample_json_dumps (repeat (Advance ListenerThread) 3)
       contended_state
     = contended_state
  /\ stream (run_writers sample_json_dumps
               (repeat (Advance MainThread) 3
                ++ repeat (Advance ListenerThread) 5)%list contended_state)
     = list_ascii_of_string ("{}" +:+ end_of_line +:+ "[]" +:+ end_of_line).
Proof.
  do 4 (split; [reflexivity|]).
  destruct (contended_emit_waits_then_appends sample_json_dumps ListenerThread
              MainThread (PList []) (PDict []) [ascii_of_nat 125; newline] 3
              contended_state eq_refl eq_refl eq_refl eq_refl)
    as [Hwait Hrun].
  split; [exact Hwait|].
  change (repeat (Advance MainThread) 3
          ++ repeat (Advance ListenerThread) 5)%list
    with (repeat (Advance MainThread)
            (length [ascii_of_nat 125; newline] + 1)
          ++ repeat (Advance ListenerThread)
               (length (line_of sample_json_dumps (PList [])) + 2))%list.
  now rewrite Hrun.
Defined.

(** [kc.stop_channels()] is interrupted from the keyboard. *)
Lemma teardown_interrupted_witness :
  raise (A := unit) KeyboardInterrupt
    (mkWorld (msg_map initial_world) (stdout initial_world) true
       (kernel_log initial_world))
  = (Raise KeyboardInterrupt, mkWorld ∅ [] true [])
  /\ finally_block (raise KeyboardInterrupt) (ret tt) initial_world
     = (Raise KeyboardInterrupt, mkWorld ∅ [] true []).
Proof.
  split; [reflexivity|].
  exact (proj1 (proj2 (teardown_swallows_errors sample_teardown initial_world))
           (raise KeyboardInterrupt) (ret tt) KeyboardInterrupt
           (mkWorld ∅ [] true []) eq_refl).
Defined.

